(** * YouTube summarizer: session state machine and URL handling

    A shallow embedding of the three Streamlit scripts of the repository
    ([summarizer.py], [summarizero2.py], [summary.py]) and the properties
    of their session state machine, video-identifier extraction and
    transcript fetching.

    Conventions.
    - A Python [str] is a list of Unicode code points ([N]).
    - A function that may raise returns a [result]; the scripts, which
      mutate [st.session_state] and talk to external services, run in a
      small state-and-exception monad [M] that also records a trace of
      external calls and of what is shown to the user.
    - The functions of [urllib.parse] that [extract_video_id] calls are
      modelled after CPython 3.11 ([Lib/urllib/parse.py]); what they take
      from the Unicode database and from [ipaddress] is a parameter
      ([Platform]).
    - The transcript service, the chat-completion service and the process
      environment are an [environment] given to every run of a script. *)

From Stdlib Require Import NArith List String Ascii Bool Lia QArith DecimalString.
From stdpp Require Import base option list gmap.

Open Scope N_scope.

(** ** Python strings *)

Abbreviation str := (list N).

(** A string literal of the source, one code point per (ASCII) byte. *)
Definition py (s : string) : str :=
  List.map N_of_ascii (list_ascii_of_string s).
Arguments py : simpl never.

Definition str_eqb (a b : str) : bool := bool_decide (a = b).

(** Truthiness of a [str]: the empty string is false. *)
Definition truthy (s : str) : bool :=
  match s with [] => false | _ :: _ => true end.

(** [c in s] for a single character [c]. *)
Definition char_in (c : N) (s : str) : bool := existsb (N.eqb c) s.

(** [s.find(c)] for a single character; [None] stands for -1. *)
Fixpoint str_find (c : N) (s : str) : option nat :=
  match s with
  | [] => None
  | x :: r => if N.eqb x c then Some 0%nat
              else option_map S (str_find c r)
  end.

(** [s.find(c, start)], for [start <= len(s)]. *)
Definition str_find_from (c : N) (start : nat) (s : str) : option nat :=
  option_map (fun i => (start + i)%nat) (str_find c (drop start s)).

(** [s.rfind(c)]. *)
Fixpoint str_rfind (c : N) (s : str) : option nat :=
  match s with
  | [] => None
  | x :: r => match str_rfind c r with
              | Some i => Some (S i)
              | None => if N.eqb x c then Some 0%nat else None
              end
  end.

(** [s.partition(c)]: [(before, found, after)]. *)
Definition str_partition (c : N) (s : str) : str * bool * str :=
  match str_find c s with
  | Some i => (take i s, true, drop (S i) s)
  | None => (s, false, [])
  end.

(** [s.rpartition(c)]: [(before, found, after)]. *)
Definition str_rpartition (c : N) (s : str) : str * bool * str :=
  match str_rfind c s with
  | Some i => (take i s, true, drop (S i) s)
  | None => ([], false, s)
  end.

(** [s.split(c, 1)]. *)
Definition str_split1 (c : N) (s : str) : list str :=
  match str_find c s with
  | Some i => [take i s; drop (S i) s]
  | None => [s]
  end.

(** [s.split(c)]: all the fields, at least one. *)
Fixpoint str_split (c : N) (s : str) : list str :=
  match s with
  | [] => [[]]
  | x :: r =>
      if N.eqb x c then [] :: str_split c r
      else match str_split c r with
           | f :: fs => (x :: f) :: fs
           | [] => [[x]]
           end
  end.

(** [s.replace(a, b)] for single characters. *)
Definition str_replace_char (a b : N) (s : str) : str :=
  List.map (fun x => if N.eqb x a then b else x) s.

(** [s.replace(c, "")]. *)
Definition str_remove (c : N) (s : str) : str :=
  List.filter (fun x => negb (N.eqb x c)) s.

(** [s.lstrip(chars)]. *)
Fixpoint str_lstrip (chars : N -> bool) (s : str) : str :=
  match s with
  | x :: r => if chars x then str_lstrip chars r else s
  | [] => []
  end.

(** [s.rstrip(chars)]. *)
Definition str_rstrip (chars : N -> bool) (s : str) : str :=
  rev (str_lstrip chars (rev s)).

(** [str.isspace] of one character: the code points whose bidirectional
    class is WS, B or S, or whose category is Zs. *)
Definition isspace (c : N) : bool :=
  ((9 <=? c) && (c <=? 13)) || ((28 <=? c) && (c <=? 32))
  || (c =? 133) || (c =? 160) || (c =? 5760)
  || ((8192 <=? c) && (c <=? 8202))
  || (c =? 8232) || (c =? 8233) || (c =? 8239) || (c =? 8287)
  || (c =? 12288).

(** [s.strip()]. *)
Definition str_strip (s : str) : str :=
  str_rstrip isspace (str_lstrip isspace s).

Definition startswith (p s : str) : bool := str_eqb (take (length p) s) p.

Definition isascii (s : str) : bool := forallb (fun c => c <? 128) s.

Definition is_ascii_upper (c : N) : bool := (65 <=? c) && (c <=? 90).
Definition is_ascii_lower (c : N) : bool := (97 <=? c) && (c <=? 122).
Definition is_ascii_digit (c : N) : bool := (48 <=? c) && (c <=? 57).
Definition is_ascii_alpha (c : N) : bool :=
  is_ascii_upper c || is_ascii_lower c.

Definition ascii_lower (c : N) : N :=
  if is_ascii_upper c then c + 32 else c.

(** The longest prefix of characters in a class, and what follows it. *)
Fixpoint str_span (p : N -> bool) (s : str) : str * str :=
  match s with
  | x :: r => if p x then let '(a, b) := str_span p r in (x :: a, b)
              else ([], s)
  | [] => ([], [])
  end.

(** [sep.join(parts)]. *)
Fixpoint str_join (sep : str) (parts : list str) : str :=
  match parts with
  | [] => []
  | [p] => p
  | p :: rest => p ++ sep ++ str_join sep rest
  end.

(** ** Exceptions and results *)

Inductive exc_class :=
| RuntimeError | ValueError | IndexError | OpenAIError | OtherException.

(** An exception: its class and [str(e)]. *)
Record exc := Exc { exc_kind : exc_class; exc_text : str }.

Inductive result (A : Type) :=
| Ret (a : A)
| Raise (e : exc).
Arguments Ret {A} a.
Arguments Raise {A} e.

Definition rbind {A B} (r : result A) (k : A -> result B) : result B :=
  match r with Ret a => k a | Raise e => Raise e end.

(** ** What the standard library takes from outside the model *)

Inductive ip_version := IPv4 | IPv6.

Class Platform := {
  (** [s.lower()] of a string with a non-ASCII character. *)
  unicode_lower : str -> str;
  (** [unicodedata.normalize('NFKC', s)]. *)
  normalize_NFKC : str -> str;
  (** [ipaddress.ip_address(s)]: the version of the address, or the
      ValueError it raises. *)
  ip_address : str -> result ip_version
}.

(** ** [urllib.parse] (CPython 3.11) *)

Module urllib_parse.

Definition scheme_chars : str :=
  py "abcdefghijklmnopqrstuvwxyzABCDEFGHIJKLMNOPQRSTUVWXYZ0123456789+-.".

Definition uses_params : list str :=
  List.map py [""; "ftp"; "hdl"; "prospero"; "http"; "imap"; "https";
               "shttp"; "rtsp"; "rtspu"; "sip"; "sips"; "mms"; "sftp";
               "tel"]%string.

(** The characters of [_WHATWG_C0_CONTROL_OR_SPACE]. *)
Definition is_c0_control_or_space (c : N) : bool := c <=? 32.

(** The characters of [_UNSAFE_URL_BYTES_TO_REMOVE]: tab, CR, LF. *)
Definition unsafe_url_bytes_to_remove : list N := [9; 13; 10].

Record ParseResult := {
  scheme : str; netloc : str; path : str;
  params : str; query : str; fragment : str
}.

(** *** Percent-decoding *)

Definition is_hexdig (c : N) : bool :=
  is_ascii_digit c || ((65 <=? c) && (c <=? 70)) || ((97 <=? c) && (c <=? 102)).

Definition hex_value (c : N) : N :=
  if is_ascii_digit c then c - 48
  else if (65 <=? c) && (c <=? 70) then c - 55
  else c - 87.

(** One lookup in [_hextobyte]: the byte of a two-digit key. *)
Definition hextobyte (key : list N) : option N :=
  match key with
  | [a; b] => if is_hexdig a && is_hexdig b
              then Some (16 * hex_value a + hex_value b) else None
  | _ => None
  end.

(** [unquote_to_bytes(string)] for a [str] of ASCII characters, whose
    UTF-8 encoding is the list of its code points. *)
Definition unquote_to_bytes (string : str) : list N :=
  if negb (truthy string) then []
  else
    match str_split 37 string with
    | [] => string
    | [_] => string
    | bits0 :: bits =>
        fold_left
          (fun res item =>
             match hextobyte (take 2 item) with
             | Some b => res ++ [b] ++ drop 2 item
             | None => res ++ [37] ++ item
             end)
          bits bits0
    end.

Definition is_continuation (b : N) : bool := (128 <=? b) && (b <=? 191).

(** The range allowed for the second byte after the lead byte [b0] of a
    three- or four-byte sequence (no overlong forms, no surrogates,
    nothing above U+10FFFF). *)
Definition second_byte_ok (b0 b1 : N) : bool :=
  if b0 =? 224 then (160 <=? b1) && (b1 <=? 191)
  else if b0 =? 237 then (128 <=? b1) && (b1 <=? 159)
  else if b0 =? 240 then (144 <=? b1) && (b1 <=? 191)
  else if b0 =? 244 then (128 <=? b1) && (b1 <=? 143)
  else is_continuation b1.

Definition replacement_character : N := 65533.

(** [bs.decode('utf-8', 'replace')]: every maximal ill-formed prefix
    becomes U+FFFD. *)
Fixpoint utf8_decode_replace (bs : list N) : str :=
  match bs with
  | [] => []
  | b0 :: r0 =>
      if b0 <? 128 then b0 :: utf8_decode_replace r0
      else if (194 <=? b0) && (b0 <=? 223) then
        match r0 with
        | [] => [replacement_character]
        | b1 :: r1 =>
            if is_continuation b1
            then ((b0 - 192) * 64 + (b1 - 128)) :: utf8_decode_replace r1
            else replacement_character :: utf8_decode_replace r0
        end
      else if (224 <=? b0) && (b0 <=? 239) then
        match r0 with
        | [] => [replacement_character]
        | b1 :: r1 =>
            if second_byte_ok b0 b1 then
              match r1 with
              | [] => [replacement_character]
              | b2 :: r2 =>
                  if is_continuation b2
                  then ((b0 - 224) * 4096 + (b1 - 128) * 64 + (b2 - 128))
                         :: utf8_decode_replace r2
                  else replacement_character :: utf8_decode_replace r1
              end
            else replacement_character :: utf8_decode_replace r0
        end
      else if (240 <=? b0) && (b0 <=? 244) then
        match r0 with
        | [] => [replacement_character]
        | b1 :: r1 =>
            if second_byte_ok b0 b1 then
              match r1 with
              | [] => [replacement_character]
              | b2 :: r2 =>
                  if is_continuation b2 then
                    match r2 with
                    | [] => [replacement_character]
                    | b3 :: r3 =>
                        if is_continuation b3
                        then ((b0 - 240) * 262144 + (b1 - 128) * 4096
                              + (b2 - 128) * 64 + (b3 - 128))
                               :: utf8_decode_replace r3
                        else replacement_character :: utf8_decode_replace r2
                    end
                  else replacement_character :: utf8_decode_replace r1
              end
            else replacement_character :: utf8_decode_replace r0
        end
      else replacement_character :: utf8_decode_replace r0
  end.

(** [_asciire.split(string)]: the maximal runs of ASCII and of non-ASCII
    characters, each with whether it is the ASCII kind. *)
Fixpoint ascii_runs (s : str) : list (bool * str) :=
  match s with
  | [] => []
  | c :: r =>
      let a := c <? 128 in
      match ascii_runs r with
      | (a', run) :: runs =>
          if Bool.eqb a a' then (a, c :: run) :: runs
          else (a, [c]) :: (a', run) :: runs
      | [] => [(a, [c])]
      end
  end.

(** [unquote(string)] with the defaults [encoding='utf-8'],
    [errors='replace']. *)
Definition unquote (string : str) : str :=
  if negb (char_in 37 string) then string
  else
    concat (List.map
              (fun '(is_ascii, run) =>
                 if is_ascii : bool
                 then utf8_decode_replace (unquote_to_bytes run)
                 else run)
              (ascii_runs string)).

(** *** Query strings *)

(** [parse_qsl(qs)] with the defaults: blank values dropped, no strict
    parsing, separator [&]. *)
Definition parse_qsl (qs : str) : list (str * str) :=
  let query_args := if truthy qs then str_split 38 qs else [] in
  fold_left
    (fun r name_value =>
       if negb (truthy name_value) then r
       else
         match str_split1 61 name_value with
         | [nv0; nv1] =>
             if truthy nv1 then
               let name := unquote (str_replace_char 43 32 nv0) in
               let value := unquote (str_replace_char 43 32 nv1) in
               r ++ [(name, value)]
             else r
         | _ => r
         end)
    query_args [].

(** [parse_qs(qs)]: the values of every name, in order. *)
Definition parse_qs (qs : str) : gmap str (list str) :=
  fold_left
    (fun parsed_result '(name, value) =>
       match parsed_result !! name with
       | Some values => <[name := values ++ [value]]> parsed_result
       | None => <[name := [value]]> parsed_result
       end)
    (parse_qsl qs) ∅.

Section parse.
Context `{Platform}.

(** [s.lower()]. *)
Definition str_lower (s : str) : str :=
  if isascii s then List.map ascii_lower s else unicode_lower s.

(** *** Splitting a URL *)

Definition _splitnetloc (url : str) (start : nat) : str * str :=
  let delim :=
    fold_left
      (fun delim c =>
         match str_find_from c start url with
         | Some wdelim => Nat.min delim wdelim
         | None => delim
         end)
      (py "/?#") (length url) in
  (drop start (take delim url), drop delim url).

Definition _checknetloc (netloc : str) : result unit :=
  if negb (truthy netloc) || isascii netloc then Ret tt
  else
    let n := str_remove 63 (str_remove 35 (str_remove 58 (str_remove 64 netloc))) in
    let netloc2 := normalize_NFKC n in
    if str_eqb n netloc2 then Ret tt
    else if existsb (fun c => char_in c netloc2) (py "/?#@:")
         then Raise (Exc ValueError
                       (py "netloc '" ++ netloc ++
                        py "' contains invalid characters under NFKC normalization"))
         else Ret tt.

(** [re.match(r"\Av[a-fA-F0-9]+\..+\Z", hostname)]. *)
Definition ipvfuture_match (hostname : str) : bool :=
  match hostname with
  | v :: r =>
      (v =? 118)
      && (let '(digits, rest) := str_span is_hexdig r in
          truthy digits
          && match rest with
             | dot :: tail =>
                 (dot =? 46) && truthy tail
                 && forallb (fun c => negb (c =? 10)) tail
             | [] => false
             end)
  | [] => false
  end.

Definition _check_bracketed_host (hostname : str) : result unit :=
  if startswith (py "v") hostname then
    if ipvfuture_match hostname then Ret tt
    else Raise (Exc ValueError (py "IPvFuture address is invalid"))
  else
    rbind (ip_address hostname)
      (fun ip =>
         match ip with
         | IPv4 => Raise (Exc ValueError
                            (py "An IPv4 address cannot be in brackets"))
         | IPv6 => Ret tt
         end).

Definition invalid_ipv6_url : exc := Exc ValueError (py "Invalid IPv6 URL").

Definition _check_bracketed_netloc (netloc : str) : result unit :=
  let '(_, _, hostname_and_port) := str_rpartition 64 netloc in
  let '(before_bracket, have_open_br, bracketed) :=
    str_partition 91 hostname_and_port in
  if have_open_br then
    if truthy before_bracket then Raise invalid_ipv6_url
    else
      let '(hostname, _, port) := str_partition 93 bracketed in
      if truthy port && negb (startswith (py ":") port)
      then Raise invalid_ipv6_url
      else _check_bracketed_host hostname
  else
    let '(hostname, _, port) := str_partition 58 hostname_and_port in
    _check_bracketed_host hostname.

(** [urlsplit(url)]: scheme, netloc, path, query, fragment. *)
Definition urlsplit (url : str) : result (str * str * str * str * str) :=
  let url := str_lstrip is_c0_control_or_space url in
  let url := fold_left (fun url b => str_remove b url)
               unsafe_url_bytes_to_remove url in
  let '(scheme, url) :=
    match str_find 58 url with
    | Some (S i') =>
        let i := S i' in
        if match url with c :: _ => is_ascii_alpha c | [] => false end
           && forallb (fun c => char_in c scheme_chars) (take i url)
        then (str_lower (take i url), drop (S i) url)
        else ([], url)
    | _ => ([], url)
    end in
  rbind
    (if str_eqb (take 2 url) (py "//") then
       let '(netloc, url) := _splitnetloc url 2 in
       if (char_in 91 netloc && negb (char_in 93 netloc))
          || (char_in 93 netloc && negb (char_in 91 netloc))
       then Raise invalid_ipv6_url
       else
         rbind (if char_in 91 netloc && char_in 93 netloc
                then _check_bracketed_netloc netloc else Ret tt)
           (fun _ => Ret (netloc, url))
     else Ret ([], url))
    (fun '(netloc, url) =>
       let '(url, fragment) :=
         if char_in 35 url
         then let '(a, _, b) := str_partition 35 url in (a, b)
         else (url, []) in
       let '(url, query) :=
         if char_in 63 url
         then let '(a, _, b) := str_partition 63 url in (a, b)
         else (url, []) in
       rbind (_checknetloc netloc)
         (fun _ => Ret (scheme, netloc, url, query, fragment))).

Definition _splitparams (url : str) : str * str :=
  if char_in 47 url then
    match str_rfind 47 url with
    | Some slash =>
        match str_find_from 59 slash url with
        | Some i => (take i url, drop (S i) url)
        | None => (url, [])
        end
    | None => (url, [])
    end
  else
    match str_find 59 url with
    | Some i => (take i url, drop (S i) url)
    | None => (take (length url - 1) url, url)
    end.

(** [urlparse(url)]. *)
Definition urlparse (url : str) : result ParseResult :=
  rbind (urlsplit url)
    (fun '(scheme, netloc, url, query, fragment) =>
       let '(url, params) :=
         if bool_decide (scheme ∈ uses_params) && char_in 59 url
         then _splitparams url
         else (url, []) in
       Ret {| scheme := scheme; netloc := netloc; path := url;
              params := params; query := query; fragment := fragment |}).

(** The [_hostinfo] property: host name and port text. *)
Definition _hostinfo (p : ParseResult) : str * option str :=
  let '(_, _, hostinfo) := str_rpartition 64 (netloc p) in
  let '(_, have_open_br, bracketed) := str_partition 91 hostinfo in
  let '(hostname, port) :=
    if have_open_br then
      let '(hostname, _, port) := str_partition 93 bracketed in
      let '(_, _, port) := str_partition 58 port in
      (hostname, port)
    else
      let '(hostname, _, port) := str_partition 58 hostinfo in
      (hostname, port) in
  (hostname, if truthy port then Some port else None).

(** The [hostname] property; [None] is Python's [None]. *)
Definition hostname (p : ParseResult) : option str :=
  let hostname := fst (_hostinfo p) in
  if negb (truthy hostname) then None
  else
    let '(hostname, percent, zone) := str_partition 37 hostname in
    Some (str_lower hostname ++ (if percent then [37] else []) ++ zone).

End parse.
End urllib_parse.

(** ** Session state, external services and the script monad *)

(** [st.session_state]: the three keys the scripts keep. *)
Record session_state := {
  summary : str;
  qa_active : bool;
  qa_history : list (str * str)
}.

(** What lines 78-83 of [summarizer.py] put in a new session; in a later
    run of the script the three keys exist and the lines do nothing. *)
Definition initial_session : session_state :=
  {| summary := []; qa_active := false; qa_history := [] |}.

(** One caption fragment of the transcript service. *)
Record caption_fragment := { text : str; start : Q; duration : Q }.

Inductive role := system | user.

(** The arguments of [client.chat.completions.create]. *)
Record chat_request := {
  model : str;
  messages : list (role * str);
  temperature : Q;
  max_tokens : N
}.

(** The [proxies] argument of [get_transcript]: the [http] and [https]
    entries. *)
Definition proxies := option (option str * option str).

(** The world outside one run of a script: the process environment (after
    [load_dotenv()]), the transcript service and the chat-completion
    service, which answers with the text of the first choice. *)
Record environment := {
  os_getenv : str -> option str;
  get_transcript : str -> proxies -> result (list caption_fragment);
  chat_completions_create : str -> chat_request -> result str
}.

(** What a run does that can be observed: calls to the two services and
    what Streamlit displays. *)
Inductive event :=
| CallGetTranscript (video_id : str) (p : proxies)
| CallChatCompletion (api_key : str) (req : chat_request)
| st_warning (body : str)
| st_error (body : str)
| st_success (body : str)
| st_subheader (body : str)
| st_markdown (body : str).

Record world := { session : session_state; trace : list event }.

(** State and exceptions; what was written before an exception stays. *)
Definition M (A : Type) : Type := world -> result A * world.

Definition ret {A} (a : A) : M A := fun w => (Ret a, w).

Definition bind {A B} (m : M A) (k : A -> M B) : M B :=
  fun w => match m w with
           | (Ret a, w') => k a w'
           | (Raise e, w') => (Raise e, w')
           end.

Definition raise {A} (e : exc) : M A := fun w => (Raise e, w).

Definition lift {A} (r : result A) : M A := fun w => (r, w).

(** [try: body / except Exception as e: handler(e)]. *)
Definition try_except {A} (body : M A) (handler : exc -> M A) : M A :=
  fun w => match body w with
           | (Ret a, w') => (Ret a, w')
           | (Raise e, w') => handler e w'
           end.

Definition get_session : M session_state := fun w => (Ret (session w), w).

Definition put_session (s : session_state) : M unit :=
  fun w => (Ret tt, {| session := s; trace := trace w |}).

Definition emit (e : event) : M unit :=
  fun w => (Ret tt, {| session := session w; trace := trace w ++ [e] |}).

Definition when (b : bool) (m : M unit) : M unit := if b then m else ret tt.

(** [for x in xs: body(x)]. *)
Fixpoint for_each {A} (xs : list A) (body : A -> M unit) : M unit :=
  match xs with
  | [] => ret tt
  | x :: r => bind (body x) (fun _ => for_each r body)
  end.

Declare Scope monad_scope.
Delimit Scope monad_scope with monad.
Notation "x <- m ;; k" := (bind m (fun x => k))
  (at level 100, m at next level, right associativity) : monad_scope.
Notation "m ;; k" := (bind m (fun _ => k))
  (at level 100, right associativity) : monad_scope.
Open Scope monad_scope.

Definition set_summary (s : str) : M unit :=
  st <- get_session ;;
  put_session {| summary := s; qa_active := qa_active st;
                 qa_history := qa_history st |}.

Definition set_qa_active (b : bool) : M unit :=
  st <- get_session ;;
  put_session {| summary := summary st; qa_active := b;
                 qa_history := qa_history st |}.

(** [st.session_state.qa_history.append(entry)]. *)
Definition qa_history_append (entry : str * str) : M unit :=
  st <- get_session ;;
  put_session {| summary := summary st; qa_active := qa_active st;
                 qa_history := qa_history st ++ [entry] |}.

(** [st.session_state.qa_history.clear()]. *)
Definition qa_history_clear : M unit :=
  st <- get_session ;;
  put_session {| summary := summary st; qa_active := qa_active st;
                 qa_history := [] |}.

(** [YouTubeTranscriptApi.get_transcript(video_id, proxies=...)]. *)
Definition call_get_transcript (env : environment) (video_id : str)
    (p : proxies) : M (list caption_fragment) :=
  emit (CallGetTranscript video_id p) ;;
  lift (get_transcript env video_id p).

(** The client of the chat-completion service. *)
Record client := { api_key : str }.

(** [OpenAI(api_key=...)], after [OpenAI.__init__] of openai 1.x: a missing
    key is looked up in the environment, and its absence there is an
    error. *)
Definition OpenAI (env : environment) (key : option str) : result client :=
  let key := match key with
             | None => os_getenv env (py "OPENAI_API_KEY")
             | Some k => Some k
             end in
  match key with
  | None =>
      Raise (Exc OpenAIError
               (py "The api_key client option must be set either by passing api_key to the client or by setting the OPENAI_API_KEY environment variable"))
  | Some k => Ret {| api_key := k |}
  end.

(** [client.chat.completions.create(...).choices[0].message.content]. *)
Definition call_chat_completion (env : environment) (c : client)
    (req : chat_request) : M str :=
  emit (CallChatCompletion (api_key c) req) ;;
  lift (chat_completions_create env (api_key c) req).

(** The decimal digits of a number, as in an f-string. *)
Definition str_of_nat (n : nat) : str :=
  py (NilEmpty.string_of_uint (Nat.to_uint n)).

(** The values of the widgets of the page and which buttons report a click
    in this run of the script. *)
Record inputs := {
  youtube_url : str;
  user_prompt : str;
  selected_model : str;
  generate_clicked : bool;
  user_question : str;
  submit_question : bool;
  done_clicked : bool
}.

(** The values of the widgets alone. *)
Record page := {
  url_field : str;
  prompt_field : str;
  model_field : str;
  question_field : str
}.

(** The three user actions: a run of the script in which exactly one
    button reports a click. *)
Definition GenerateSummary (p : page) : inputs :=
  {| youtube_url := url_field p; user_prompt := prompt_field p;
     selected_model := model_field p; generate_clicked := true;
     user_question := question_field p; submit_question := false;
     done_clicked := false |}.

Definition AskQuestion (p : page) : inputs :=
  {| youtube_url := url_field p; user_prompt := prompt_field p;
     selected_model := model_field p; generate_clicked := false;
     user_question := question_field p; submit_question := true;
     done_clicked := false |}.

Definition EndSession (p : page) : inputs :=
  {| youtube_url := url_field p; user_prompt := prompt_field p;
     selected_model := model_field p; generate_clicked := false;
     user_question := question_field p; submit_question := false;
     done_clicked := true |}.

(** Some emoji of the messages. *)
Definition cross_mark : N := 10060.
Definition memo : N := 128221.
Definition question_mark_ornament : N := 10067.

(** [enumerate(xs)]. *)
Definition enumerate {A} (xs : list A) : list (nat * A) :=
  combine (seq 0 (length xs)) xs.

Definition nl : str := [10].

(** [not v] is true of [None] and of the empty string. *)
Definition truthy_value (v : option str) : bool :=
  match v with Some s => truthy s | None => false end.

(** ** [summarizer.py] *)

Module Summarizer.
Import urllib_parse.

Section script.
Context `{Platform}.

(** [extract_video_id(url)]; the value is a [str] or Python's [None]. *)
Definition extract_video_id (url : str) : result (option str) :=
  rbind (urlparse url)
    (fun parsed_url =>
       if bool_decide (hostname parsed_url = Some (py "youtu.be")) then
         Ret (Some (drop 1 (path parsed_url)))
       else if bool_decide (hostname parsed_url ∈
                              [Some (py "www.youtube.com");
                               Some (py "youtube.com")]) then
         match default [None]
                 (List.map Some <$> parse_qs (query parsed_url) !! py "v") with
         | v :: _ => Ret v
         | [] => Raise (Exc IndexError (py "list index out of range"))
         end
       else Ret None).

(** [fetch_transcript(video_id)]. *)
Definition fetch_transcript (env : environment) (video_id : str) : M str :=
  transcript_list <- call_get_transcript env video_id None ;;
  ret (str_join (py " ") (List.map text transcript_list)).

(** The request of [generate_summary]. *)
Definition summary_request (prompt transcript model : str) : chat_request :=
  let full_prompt :=
    prompt ++ nl ++ nl
    ++ py "Here is the transcript of the video:" ++ nl ++ transcript
    ++ nl ++ nl
    ++ py "Generate a compact, descriptive summary with key points." in
  {| model := model;
     messages :=
       [(system, py "You are a helpful assistant that summarizes video transcripts.");
        (user, full_prompt)];
     temperature := 1 # 2;
     max_tokens := 800 |}.

(** [generate_summary(prompt, transcript, model)]. *)
Definition generate_summary (env : environment) (c : client)
    (prompt transcript model : str) : M str :=
  call_chat_completion env c (summary_request prompt transcript model).

(** The request of [answer_question_from_summary]. *)
Definition answer_request (summary question model : str) : chat_request :=
  let question_prompt :=
    py "Based on the following summary of a YouTube video, answer the question:"
    ++ nl ++ nl
    ++ py "Summary: " ++ summary ++ nl ++ nl
    ++ py "Question: " ++ question ++ nl
    ++ py "Answer clearly and concisely." in
  {| model := model;
     messages :=
       [(system, py "You are an assistant that answers questions based on video summaries.");
        (user, question_prompt)];
     temperature := 1 # 2;
     max_tokens := 400 |}.

(** [answer_question_from_summary(summary, question, model)]. *)
Definition answer_question_from_summary (env : environment) (c : client)
    (summary question model : str) : M str :=
  call_chat_completion env c (answer_request summary question model).

(** The handler of the Generate Summary button. *)
Definition generate_summary_button (env : environment) (c : client)
    (i : inputs) : M unit :=
  when (generate_clicked i)
    (if negb (truthy (str_strip (youtube_url i))) then
       emit (st_warning (py "Please enter a YouTube video URL."))
     else
       try_except
         (video_id <- lift (extract_video_id (youtube_url i)) ;;
          if negb (truthy_value video_id) then
            emit (st_error (py "Invalid YouTube URL format."))
          else
            (* here [video_id] is a non-empty [str] *)
            let video_id := default [] video_id in
            transcript <- fetch_transcript env video_id ;;
            s <- generate_summary env c (user_prompt i) transcript
                   (selected_model i) ;;
            set_summary s ;;
            set_qa_active true)
         (fun e =>
            emit (st_error ([cross_mark] ++ py " An error occurred: "
                            ++ exc_text e)))).

(** Display of the summary, if there is one. *)
Definition display_summary : M unit :=
  st <- get_session ;;
  when (truthy (summary st))
    (emit (st_subheader ([memo] ++ py " Summary")) ;;
     emit (st_success (summary st))).

(** The Q&A interface: the question form, the history and the Done
    button. *)
Definition qa_interface (env : environment) (c : client) (i : inputs)
    : M unit :=
  st <- get_session ;;
  when (qa_active st && truthy (summary st))
    (emit (st_markdown (py "---")) ;;
     emit (st_subheader ([question_mark_ornament]
                         ++ py " Ask a Question about the Video")) ;;
     when (submit_question i && truthy (str_strip (user_question i)))
       (st <- get_session ;;
        answer <- answer_question_from_summary env c (summary st)
                    (user_question i) (selected_model i) ;;
        qa_history_append (user_question i, answer)) ;;
     st <- get_session ;;
     for_each (enumerate (rev (qa_history st)))
       (fun '(i, (q, a)) =>
          emit (st_markdown (py "**Q" ++ str_of_nat (i + 1) ++ py ":** " ++ q)) ;;
          emit (st_markdown (py "**A" ++ str_of_nat (i + 1) ++ py ":** " ++ a)) ;;
          emit (st_markdown (py "---"))) ;;
     when (done_clicked i)
       (set_qa_active false ;;
        qa_history_clear ;;
        emit (st_success
                (py "Question & Answer session ended. You can generate a new summary if you like.")))).

(** One run of the script: the client is made first, at module level;
    the static parts of the page are left out. *)
Definition script (env : environment) (i : inputs) : M unit :=
  c <- lift (OpenAI env (os_getenv env (py "OPENAI_API_KEY"))) ;;
  generate_summary_button env c i ;;
  display_summary ;;
  qa_interface env c i.

(** A run from a session state: how it ends, the state it leaves and its
    trace. *)
Definition run (env : environment) (i : inputs) (st : session_state)
    : result unit * world :=
  script env i {| session := st; trace := [] |}.

Definition step (env : environment) (i : inputs) (st : session_state)
    : session_state :=
  session (snd (run env i st)).

End script.
End Summarizer.

(** ** [summarizero2.py] *)

Module Summarizero2.
Import urllib_parse.

Section script.
Context `{Platform}.

(** [extract_video_id(url)]; the value is a [str] or Python's [None]. *)
Definition extract_video_id (url : str) : result (option str) :=
  rbind (urlparse url)
    (fun parsed_url =>
       if bool_decide (hostname parsed_url = Some (py "youtu.be")) then
         Ret (Some (drop 1 (path parsed_url)))
       else if bool_decide (hostname parsed_url ∈
                              [Some (py "www.youtube.com");
                               Some (py "youtube.com")]) then
         match default [None]
                 (List.map Some <$> parse_qs (query parsed_url) !! py "v") with
         | v :: _ => Ret v
         | [] => Raise (Exc IndexError (py "list index out of range"))
         end
       else Ret None).

(** The text before the underlying error in the message of
    [fetch_transcript]. *)
Definition transcript_hint : str :=
  py "Could not retrieve transcript. This may be due to:" ++ nl
  ++ py "- The video has no captions or captions are disabled." ++ nl
  ++ py "- Your IP is being blocked by YouTube (common on cloud hosting)." ++ nl
  ++ py "- You are using a cloud provider IP (e.g., Streamlit Cloud, AWS, etc.)."
  ++ nl ++ nl
  ++ py "Technical error: ".

(** [fetch_transcript(video_id)]. *)
Definition fetch_transcript (env : environment) (video_id : str) : M str :=
  try_except
    (let proxy := (os_getenv env (py "HTTP_PROXY"),
                   os_getenv env (py "HTTPS_PROXY")) in
     transcript_list <- call_get_transcript env video_id (Some proxy) ;;
     ret (str_join (py " ") (List.map text transcript_list)))
    (fun e => raise (Exc RuntimeError (transcript_hint ++ exc_text e))).

(** The request of [generate_summary]. *)
Definition summary_request (prompt transcript model : str) : chat_request :=
  let full_prompt :=
    prompt ++ nl ++ nl
    ++ py "Here is the transcript of the video:" ++ nl ++ transcript
    ++ nl ++ nl
    ++ py "Generate a compact, descriptive summary with key points." in
  {| model := model;
     messages :=
       [(system, py "Watch the following YouTube video. Based on its content, generate a structured summary for educational and knowledge purposes. Break it down into:Objective Required Tools/Inputs (if any) Key Steps or Concepts Sub-tasks or Techniques (if applicable) Dependencies or Prerequisites Potential Pitfalls or Common Mistakes Make the summary clear, concise, and easy to follow, ideal for someone trying to learn or apply the knowledge.");
        (user, full_prompt)];
     temperature := 1 # 2;
     max_tokens := 800 |}.

(** [generate_summary(prompt, transcript, model)]. *)
Definition generate_summary (env : environment) (c : client)
    (prompt transcript model : str) : M str :=
  call_chat_completion env c (summary_request prompt transcript model).

(** The request of [answer_question_from_summary]. *)
Definition answer_request (summary question model : str) : chat_request :=
  let question_prompt :=
    py "Based on the following summary of a YouTube video, answer the question:"
    ++ nl ++ nl
    ++ py "Summary: " ++ summary ++ nl ++ nl
    ++ py "Question: " ++ question ++ nl
    ++ py "Answer clearly and concisely." in
  {| model := model;
     messages :=
       [(system, py "You are an assistant that answers questions based on video summaries.");
        (user, question_prompt)];
     temperature := 1 # 2;
     max_tokens := 400 |}.

(** [answer_question_from_summary(summary, question, model)]. *)
Definition answer_question_from_summary (env : environment) (c : client)
    (summary question model : str) : M str :=
  call_chat_completion env c (answer_request summary question model).

(** The handler of the Generate Summary button. *)
Definition generate_summary_button (env : environment) (c : client)
    (i : inputs) : M unit :=
  when (generate_clicked i)
    (if negb (truthy (str_strip (youtube_url i))) then
       emit (st_warning (py "Please enter a YouTube video URL."))
     else
       try_except
         (video_id <- lift (extract_video_id (youtube_url i)) ;;
          if negb (truthy_value video_id) then
            emit (st_error (py "Invalid YouTube URL format."))
          else
            (* here [video_id] is a non-empty [str] *)
            let video_id := default [] video_id in
            transcript <- fetch_transcript env video_id ;;
            s <- generate_summary env c (user_prompt i) transcript
                   (selected_model i) ;;
            set_summary s ;;
            set_qa_active true)
         (fun e =>
            match exc_kind e with
            | RuntimeError =>
                emit (st_error ([cross_mark] ++ py " " ++ exc_text e))
            | _ =>
                emit (st_error ([cross_mark]
                                ++ py " An unexpected error occurred: "
                                ++ exc_text e))
            end)).

(** Display of the summary, if there is one. *)
Definition display_summary : M unit :=
  st <- get_session ;;
  when (truthy (summary st))
    (emit (st_subheader ([memo] ++ py " Summary")) ;;
     emit (st_success (summary st))).

(** The Q&A interface: the question form, the history and the Done
    button. *)
Definition qa_interface (env : environment) (c : client) (i : inputs)
    : M unit :=
  st <- get_session ;;
  when (qa_active st && truthy (summary st))
    (emit (st_markdown (py "---")) ;;
     emit (st_subheader ([question_mark_ornament]
                         ++ py " Ask a Question about the Video")) ;;
     when (submit_question i && truthy (str_strip (user_question i)))
       (st <- get_session ;;
        answer <- answer_question_from_summary env c (summary st)
                    (user_question i) (selected_model i) ;;
        qa_history_append (user_question i, answer)) ;;
     st <- get_session ;;
     for_each (enumerate (rev (qa_history st)))
       (fun '(i, (q, a)) =>
          emit (st_markdown (py "**Q" ++ str_of_nat (i + 1) ++ py ":** " ++ q)) ;;
          emit (st_markdown (py "**A" ++ str_of_nat (i + 1) ++ py ":** " ++ a)) ;;
          emit (st_markdown (py "---"))) ;;
     when (done_clicked i)
       (set_qa_active false ;;
        qa_history_clear ;;
        emit (st_success
                (py "Question & Answer session ended. You can generate a new summary if you like.")))).

(** One run of the script: the client is made first, at module level;
    the static parts of the page are left out. *)
Definition script (env : environment) (i : inputs) : M unit :=
  c <- lift (OpenAI env (os_getenv env (py "OPENAI_API_KEY"))) ;;
  generate_summary_button env c i ;;
  display_summary ;;
  qa_interface env c i.

(** A run from a session state: how it ends, the state it leaves and its
    trace. *)
Definition run (env : environment) (i : inputs) (st : session_state)
    : result unit * world :=
  script env i {| session := st; trace := [] |}.

Definition step (env : environment) (i : inputs) (st : session_state)
    : session_state :=
  session (snd (run env i st)).

End script.
End Summarizero2.

(** ** [summary.py] *)

Module Summary.
Import urllib_parse.

Section script.
Context `{Platform}.

(** [extract_video_id(url)]; the value is a [str] or Python's [None]. *)
Definition extract_video_id (url : str) : result (option str) :=
  rbind (urlparse url)
    (fun parsed_url =>
       if bool_decide (hostname parsed_url = Some (py "youtu.be")) then
         Ret (Some (drop 1 (path parsed_url)))
       else if bool_decide (hostname parsed_url ∈
                              [Some (py "www.youtube.com");
                               Some (py "youtube.com")]) then
         match default [None]
                 (List.map Some <$> parse_qs (query parsed_url) !! py "v") with
         | v :: _ => Ret v
         | [] => Raise (Exc IndexError (py "list index out of range"))
         end
       else Ret None).

(** [fetch_transcript(video_id)]. *)
Definition fetch_transcript (env : environment) (video_id : str) : M str :=
  transcript_list <- call_get_transcript env video_id None ;;
  ret (str_join (py " ") (List.map text transcript_list)).

(** The request of [generate_summary]. *)
Definition summary_request (prompt transcript model : str) : chat_request :=
  let full_prompt :=
    prompt ++ nl ++ nl
    ++ py "Here is the transcript of the video:" ++ nl ++ transcript
    ++ nl ++ nl
    ++ py "Generate a compact, descriptive summary with key points." in
  {| model := model;
     messages :=
       [(system, py "You are a helpful assistant that summarizes video transcripts.");
        (user, full_prompt)];
     temperature := 1 # 2;
     max_tokens := 800 |}.

(** [generate_summary(prompt, transcript, model)]. *)
Definition generate_summary (env : environment) (c : client)
    (prompt transcript model : str) : M str :=
  call_chat_completion env c (summary_request prompt transcript model).

(** The handler of the Generate Summary button: the summary is displayed
    and nothing is kept. *)
Definition generate_summary_button (env : environment) (c : client)
    (i : inputs) : M unit :=
  when (generate_clicked i)
    (if negb (truthy (str_strip (youtube_url i))) then
       emit (st_warning (py "Please enter a YouTube video URL."))
     else
       try_except
         (video_id <- lift (extract_video_id (youtube_url i)) ;;
          if negb (truthy_value video_id) then
            emit (st_error (py "Invalid YouTube URL format."))
          else
            (* here [video_id] is a non-empty [str] *)
            let video_id := default [] video_id in
            transcript <- fetch_transcript env video_id ;;
            summary <- generate_summary env c (user_prompt i) transcript
                         (selected_model i) ;;
            emit (st_subheader ([memo] ++ py " Summary")) ;;
            emit (st_success summary))
         (fun e =>
            emit (st_error ([cross_mark] ++ py " An error occurred: "
                            ++ exc_text e)))).

(** One run of the script. *)
Definition script (env : environment) (i : inputs) : M unit :=
  c <- lift (OpenAI env (os_getenv env (py "OPENAI_API_KEY"))) ;;
  generate_summary_button env c i.

Definition run (env : environment) (i : inputs) (st : session_state)
    : result unit * world :=
  script env i {| session := st; trace := [] |}.

End script.
End Summary.


(** * Notions of the specification *)

(** A platform for the examples: their URLs are ASCII and have no
    brackets, so that none of the three functions is consulted. *)
Definition example_platform : Platform :=
  {| unicode_lower := fun s => s;
     normalize_NFKC := fun s => s;
     ip_address := fun _ => Raise (Exc ValueError []) |}.

(** The characters that end the path of a URL or are removed from it:
    [?], [#], [;], tab, CR and LF. *)
Definition url_delimiters : str := py "?#;" ++ [9; 13; 10].

(** An identifier that can stand as the path of a URL. *)
Definition plain_identifier (id : str) : bool :=
  forallb (fun c => negb (char_in c url_delimiters)) id.

(** A string that is empty or starts with one of the given characters. *)
Definition empty_or_starts_with (cs : list N) (s : str) : Prop :=
  s = [] \/ exists c r, s = c :: r /\ c ∈ cs.

(** The values given to a parameter in a list of name/value pairs, in
    order. *)
Definition values_of (name : str) (pairs : list (str * str)) : list str :=
  List.map snd (List.filter (fun p => str_eqb (fst p) name) pairs).

(** The first value of a query parameter, or none if it is absent. *)
Definition first_value (name : str) (pairs : list (str * str)) : option str :=
  head (values_of name pairs).

(** One step of the loop of [parse_qs]. *)
Definition add_value (parsed_result : gmap str (list str)) (nv : str * str)
    : gmap str (list str) :=
  let '(name, value) := nv in
  match parsed_result !! name with
  | Some values => <[name := values ++ [value]]> parsed_result
  | None => <[name := [value]]> parsed_result
  end.

(** The text that [fetchTranscript] returns by the specification: the
    text of the first fragment, then a space and the text of each
    following fragment. *)
Definition joined_with_single_space (texts : list str) : str :=
  match texts with
  | [] => []
  | t :: rest => t ++ concat (List.map (fun t' => 32 :: t') rest)
  end.

(** [needle] occurs in [s]. *)
Definition mentions (needle s : str) : Prop :=
  exists before after, s = before ++ needle ++ after.

(** ** Outcomes of a run *)

(** Events that only display the state: a heading, a text, a success
    box; not a call to a service, a warning or an error. *)
Definition is_display (e : event) : bool :=
  match e with
  | st_success _ | st_subheader _ | st_markdown _ => true
  | _ => false
  end.

(** A computation that returns, leaves the session as it is and only
    displays. *)
Definition only_displays (m : M unit) : Prop :=
  forall w, exists evs,
    m w = (Ret tt, {| session := session w; trace := trace w ++ evs |})
    /\ forallb is_display evs = true.

(** [Q] holds of the outcome of [m] in the world [w]. *)
Definition post {A} (m : M A) (w : world) (Q : result A -> world -> Prop)
    : Prop :=
  Q (fst (m w)) (snd (m w)).

(** The proxies that [summarizero2.py] passes to the transcript service. *)
Definition environment_proxies (env : environment) : proxies :=
  Some (os_getenv env (py "HTTP_PROXY"), os_getenv env (py "HTTPS_PROXY")).

(** The variable of the environment that holds the API key. *)
Definition api_key_variable : str := py "OPENAI_API_KEY".

(** How a variant of the script finds the identifier and calls the two
    services. *)
Record service_use := {
  extract : str -> result (option str);
  proxies_for : environment -> proxies;
  request_for : str -> str -> str -> chat_request
}.

(** The outcome of the steps of GenerateSummary for the page [p], with the
    API key [key]: [Some reply] when every step succeeds and the completion
    is [reply], [None] when a step fails. *)
Inductive generate_outcome (u : service_use) (env : environment) (key : str)
    (p : page) : option str -> Prop :=
| blank_url :
    truthy (str_strip (url_field p)) = false ->
    generate_outcome u env key p None
| url_rejected e :
    truthy (str_strip (url_field p)) = true ->
    extract u (url_field p) = Raise e ->
    generate_outcome u env key p None
| no_identifier v :
    truthy (str_strip (url_field p)) = true ->
    extract u (url_field p) = Ret v ->
    truthy_value v = false ->
    generate_outcome u env key p None
| transcript_unavailable video_id e :
    truthy (str_strip (url_field p)) = true ->
    extract u (url_field p) = Ret (Some video_id) ->
    truthy video_id = true ->
    get_transcript env video_id (proxies_for u env) = Raise e ->
    generate_outcome u env key p None
| llm_request_failed video_id fragments e :
    truthy (str_strip (url_field p)) = true ->
    extract u (url_field p) = Ret (Some video_id) ->
    truthy video_id = true ->
    get_transcript env video_id (proxies_for u env) = Ret fragments ->
    chat_completions_create env key
      (request_for u (prompt_field p)
         (str_join (py " ") (List.map text fragments)) (model_field p))
    = Raise e ->
    generate_outcome u env key p None
| summary_generated video_id fragments reply :
    truthy (str_strip (url_field p)) = true ->
    extract u (url_field p) = Ret (Some video_id) ->
    truthy video_id = true ->
    get_transcript env video_id (proxies_for u env) = Ret fragments ->
    chat_completions_create env key
      (request_for u (prompt_field p)
         (str_join (py " ") (List.map text fragments)) (model_field p))
    = Ret reply ->
    generate_outcome u env key p (Some reply).

Section variants.
Context `{Platform}.

Definition summarizer_use : service_use :=
  {| extract := Summarizer.extract_video_id;
     proxies_for := fun _ => None;
     request_for := Summarizer.summary_request |}.

Definition summarizero2_use : service_use :=
  {| extract := Summarizero2.extract_video_id;
     proxies_for := fun env => Some (os_getenv env (py "HTTP_PROXY"),
                                     os_getenv env (py "HTTPS_PROXY"));
     request_for := Summarizero2.summary_request |}.

Definition summary_use : service_use :=
  {| extract := Summary.extract_video_id;
     proxies_for := fun _ => None;
     request_for := Summary.summary_request |}.

(** The runs of the script that are one of the three user actions. *)
Inductive user_action : inputs -> Prop :=
| action_generate p : user_action (GenerateSummary p)
| action_ask p : user_action (AskQuestion p)
| action_end p : user_action (EndSession p).

(** The session states reachable from the initial one by user actions,
    in environments that satisfy [E]. *)
Inductive reachable (E : environment -> Prop) : session_state -> Prop :=
| reachable_initial : reachable E initial_session
| reachable_step env i st :
    reachable E st -> E env -> user_action i ->
    reachable E (Summarizer.step env i st).

End variants.

(** An environment whose chat service never answers with the empty
    text. *)
Definition replies_nonempty (env : environment) : Prop :=
  forall key req, chat_completions_create env key req <> Ret [].

(** ** Examples *)

(** The scenario of the specification: the key is set, the transcript is
    "hello world" and the chat service answers "Summary text". *)
Definition example_env : environment :=
  {| os_getenv := fun name =>
       if str_eqb name api_key_variable then Some (py "sk-example") else None;
     get_transcript := fun _ _ =>
       Ret [ {| text := py "hello"; start := 0; duration := 1 |};
             {| text := py "world"; start := 1; duration := 1 |} ];
     chat_completions_create := fun _ _ => Ret (py "Summary text") |}.

Definition example_page : page :=
  {| url_field := py "https://youtu.be/abc123";
     prompt_field := py "Summarize this video for a blog post.";
     model_field := py "gpt-3.5-turbo";
     question_field := py "What is it about?" |}.

(** The session after the question of the scenario. *)
Definition example_active_session : session_state :=
  {| summary := py "Summary text"; qa_active := true;
     qa_history := [(py "What is it about?", py "It's about hello world")] |}.

(** The environment of the whole scenario: the chat service answers the
    summary request (800 tokens at most) and the question. *)
Definition scenario_env : environment :=
  {| os_getenv := os_getenv example_env;
     get_transcript := get_transcript example_env;
     chat_completions_create := fun _ req =>
       if max_tokens req =? 800 then Ret (py "Summary text")
       else Ret (py "It's about hello world") |}.

(** The same environment without the key. *)
Definition env_without_key : environment :=
  {| os_getenv := fun _ => None;
     get_transcript := get_transcript example_env;
     chat_completions_create := chat_completions_create example_env |}.

(** The same environment with a transcript service that fails. *)
Definition env_transcript_down : environment :=
  {| os_getenv := os_getenv example_env;
     get_transcript := fun _ _ =>
       Raise (Exc OtherException (py "no element found"));
     chat_completions_create := chat_completions_create example_env |}.

(** The same environment with a chat service that answers with the empty
    text. *)
Definition env_empty_reply : environment :=
  {| os_getenv := os_getenv example_env;
     get_transcript := get_transcript example_env;
     chat_completions_create := fun _ _ => Ret [] |}.

(** ** Notions of further properties *)

(** Calls to the two services. *)
Definition is_call (e : event) : bool :=
  match e with
  | CallGetTranscript _ _ | CallChatCompletion _ _ => true
  | _ => false
  end.

(** A value that [parse_qs] returns as it is written in the query: not
    empty, and without [&], [#], [%], [+], tab, CR or LF. *)
Definition plain_value (id : str) : bool :=
  truthy id
  && forallb (fun c => negb (char_in c (py "&#%+" ++ [9; 13; 10]))) id.

(** What may follow the first parameter of a query: nothing, or [&] and
    more text without [#], tab, CR or LF. *)
Definition more_parameters (rest : str) : bool :=
  match rest with [] => true | c :: _ => c =? 38 end
  && forallb (fun c => negb (char_in c [35; 9; 13; 10])) rest.

(** The three lines that display the entry number [n] of the history. *)
Definition entry_lines (n : nat) (q a : str) : list event :=
  [ st_markdown (py "**Q" ++ str_of_nat n ++ py ":** " ++ q);
    st_markdown (py "**A" ++ str_of_nat n ++ py ":** " ++ a);
    st_markdown (py "---") ].

(** The lines that display entries, numbered from [n]. *)
Fixpoint history_lines (n : nat) (entries : list (str * str)) : list event :=
  match entries with
  | [] => []
  | (q, a) :: rest => entry_lines n q a ++ history_lines (S n) rest
  end.

(** The lines that display the summary of a state, if there is one. *)
Definition summary_lines (st : session_state) : list event :=
  if truthy (summary st)
  then [st_subheader ([memo] ++ py " Summary"); st_success (summary st)]
  else [].

(** The lines of the Q&A interface of a state, if it is shown: a
    separator, the heading and the history, the newest entry first. *)
Definition qa_lines (st : session_state) : list event :=
  if qa_active st && truthy (summary st)
  then [ st_markdown (py "---");
         st_subheader ([question_mark_ornament]
                       ++ py " Ask a Question about the Video") ]
       ++ history_lines 1 (rev (qa_history st))
  else [].

(** A URL of ASCII characters without square brackets. *)
Definition plain_char (c : N) : bool :=
  (c <? 128) && negb (c =? 91) && negb (c =? 93).

Definition plain_url (url : str) : bool := forallb plain_char url.

(** The heading of the Q&A interface (line 110 of [summarizer.py]). *)
Definition is_qa_heading (e : event) : bool :=
  match e with
  | st_subheader s =>
      str_eqb s ([question_mark_ornament]
                 ++ py " Ask a Question about the Video")
  | _ => false
  end.

(** A page that shows the Q&A interface, the block of lines 108-130 that
    holds the Done button: the run that made the page displayed the
    heading of the block. *)
Definition shows_qa_interface (r : result unit * world) : bool :=
  existsb is_qa_heading (trace (snd r)).

(** A run of the script in which no button reports a click. *)
Definition Rerun (p : page) : inputs :=
  {| youtube_url := url_field p; user_prompt := prompt_field p;
     selected_model := model_field p; generate_clicked := false;
     user_question := question_field p; submit_question := false;
     done_clicked := false |}.

(** The page of the scenario with a URL of spaces, and with a URL of
    another site. *)
Definition blank_page : page :=
  {| url_field := py "   ";
     prompt_field := prompt_field example_page;
     model_field := model_field example_page;
     question_field := py "  " |}.

Definition other_site_page : page :=
  {| url_field := py "https://vimeo.com/123";
     prompt_field := prompt_field example_page;
     model_field := model_field example_page;
     question_field := question_field example_page |}.

(** The environment of the scenario with a chat service that fails. *)
Definition env_chat_down : environment :=
  {| os_getenv := os_getenv example_env;
     get_transcript := get_transcript example_env;
     chat_completions_create := fun _ _ =>
       Raise (Exc OtherException (py "Connection error.")) |}.

(** * Properties *)

(** ** Strings *)

Lemma char_in_false (c : N) (s : str) :
  char_in c s = false <-> c ∉ s.
Proof.
  unfold char_in. induction s as [|x r IH]; simpl.
  - split; [intros _; apply not_elem_of_nil | done].
  - rewrite not_elem_of_cons, orb_false_iff, IH, N.eqb_neq.
    split; intros [? ?]; split; congruence.
Qed.

Lemma str_find_None (c : N) (s : str) :
  char_in c s = false -> str_find c s = None.
Proof.
  unfold char_in. induction s as [|x r IH]; simpl; [done|].
  rewrite orb_false_iff, N.eqb_neq. intros [Hx Hr].
  destruct (N.eqb_spec x c) as [->|_]; [done|]. by rewrite IH.
Qed.

Lemma str_find_app (c : N) (a b : str) :
  char_in c a = false ->
  str_find c (a ++ b) = option_map (fun i => (length a + i)%nat) (str_find c b).
Proof.
  unfold char_in. induction a as [|x r IH]; simpl.
  - intros _. by destruct (str_find c b).
  - rewrite orb_false_iff, N.eqb_neq. intros [Hx Hr].
    destruct (N.eqb_spec x c) as [->|_]; [done|].
    rewrite IH by done. by destruct (str_find c b).
Qed.

Lemma str_remove_id (c : N) (s : str) :
  char_in c s = false -> str_remove c s = s.
Proof.
  unfold char_in, str_remove. induction s as [|x r IH]; simpl; [done|].
  rewrite orb_false_iff, N.eqb_neq. intros [Hx Hr].
  destruct (N.eqb_spec x c) as [->|_]; [done|]. simpl. by rewrite IH.
Qed.

Lemma char_in_app (c : N) (a b : str) :
  char_in c (a ++ b) = char_in c a || char_in c b.
Proof. unfold char_in. apply existsb_app. Qed.

Lemma plain_identifier_char (id : str) (c : N) :
  plain_identifier id = true -> char_in c url_delimiters = true ->
  char_in c id = false.
Proof.
  unfold plain_identifier. intros Hid Hc.
  apply char_in_false. intros Hin.
  rewrite forallb_forall in Hid.
  apply list_elem_of_In in Hin. apply Hid in Hin.
  by rewrite Hc in Hin.
Qed.

Lemma str_find_Some (c : N) (s : str) (i : nat) :
  str_find c s = Some i -> s !! i = Some c.
Proof.
  revert i. induction s as [|x r IH]; intros i; simpl; [done|].
  destruct (N.eqb_spec x c) as [->|_].
  - by intros [= <-].
  - destruct (str_find c r) as [j|]; simpl; [|done].
    intros [= <-]. simpl. by apply IH.
Qed.

Lemma str_find_from_Some (c : N) (start : nat) (s : str) (i : nat) :
  str_find_from c start s = Some i -> s !! i = Some c.
Proof.
  unfold str_find_from.
  destruct (str_find c (drop start s)) as [j|] eqn:E; simpl; [|done].
  intros [= <-]. apply str_find_Some in E. by rewrite lookup_drop in E.
Qed.


(** ** Query strings *)

Import urllib_parse.

Lemma fold_add_value_lookup (pairs : list (str * str))
    (m : gmap str (list str)) (k : str) :
  fold_left add_value pairs m !! k
  = match values_of k pairs with
    | [] => m !! k
    | vs => Some (default [] (m !! k) ++ vs)
    end.
Proof.
  revert m. induction pairs as [|[n v] pairs IH]; intros m; [done|].
  cbn [fold_left]. rewrite IH. unfold values_of. cbn [List.filter fst].
  unfold str_eqb at 2. case_bool_decide as Hn.
  - subst n. cbn [List.map snd add_value].
    destruct (m !! k) as [old|] eqn:Ek; rewrite lookup_insert_eq; simpl;
      destruct (List.map snd _); by rewrite <- ?app_assoc.
  - assert (add_value m (n, v) !! k = m !! k) as ->; [|done].
    cbn [add_value]. destruct (m !! n); by rewrite lookup_insert_ne.
Qed.

Lemma parse_qs_lookup (qs k : str) :
  parse_qs qs !! k
  = match values_of k (parse_qsl qs) with [] => None | vs => Some vs end.
Proof.
  unfold parse_qs.
  change (fold_left _ (parse_qsl qs) ∅) with (fold_left add_value (parse_qsl qs) ∅).
  rewrite fold_add_value_lookup, lookup_empty. done.
Qed.

Lemma parse_qs_get (qs k : str) :
  default [None] (List.map Some <$> parse_qs qs !! k)
  = match first_value k (parse_qsl qs) with
    | Some v => Some v :: List.map Some (tail (values_of k (parse_qsl qs)))
    | None => [None]
    end.
Proof.
  rewrite parse_qs_lookup. unfold first_value.
  by destruct (values_of k (parse_qsl qs)).
Qed.

(** ** Splitting a URL *)

Section url_facts.
Context `{Platform}.
Import urllib_parse.

Lemma splitnetloc_rest (url : str) (start : nat) (nl rest : str) :
  _splitnetloc url start = (nl, rest) ->
  empty_or_starts_with [47; 63; 35] rest.
Proof.
  unfold _splitnetloc.
  set (ok := fun d : nat =>
               d = length url \/ exists c, c ∈ [47; 63; 35] /\ url !! d = Some c).
  assert (Hstep : forall d c, ok d -> c ∈ [47; 63; 35] ->
            ok (match str_find_from c start url with
                | Some w => Nat.min d w | None => d end)).
  { intros d c Hd Hc.
    destruct (str_find_from c start url) as [w|] eqn:E; [|done].
    apply str_find_from_Some in E.
    destruct (Nat.min_spec d w) as [[_ ->]|[_ ->]]; [done|].
    right. by exists c. }
  match goal with |- context [drop ?d url] => assert (Hok : ok d) end.
  { change (py "/?#") with [47; 63; 35]. cbn [fold_left].
    repeat apply Hstep; [by left|repeat constructor..]. }
  match goal with |- context [drop ?d url] => generalize dependent d end.
  intros d Hok [= _ <-].
  destruct Hok as [->|(c & Hc & Hd)].
  - left. by rewrite drop_all.
  - right. exists c, (drop (S d) url). split; [|done].
    by apply drop_S.
Qed.

Lemma hostname_netloc (p : ParseResult) (h : str) :
  hostname p = Some h -> netloc p <> [].
Proof. destruct p as [? nl ? ? ? ?]. simpl. by intros Hh ->. Qed.

Lemma str_partition_head (c x : N) (r a b : str) (found : bool) :
  str_partition c (x :: r) = (a, found, b) ->
  if N.eqb x c then a = [] else exists r', a = x :: r'.
Proof.
  unfold str_partition. simpl.
  destruct (N.eqb_spec x c) as [->|Hx].
  - by intros [= <- _ _].
  - destruct (str_find c r) as [i|]; simpl; intros [= <- _ _]; eauto.
Qed.

Lemma splitparams_head (r : str) :
  exists r', fst (_splitparams (47 :: r)) = 47 :: r'.
Proof.
  unfold _splitparams. change (char_in 47 (47 :: r)) with true. cbv iota.
  destruct (str_rfind 47 (47 :: r)) as [slash|] eqn:Es; [|by eauto].
  unfold str_find_from.
  destruct (str_find 59 (drop slash (47 :: r))) as [j|] eqn:Ej;
    simpl; [|by eauto].
  destruct slash as [|slash].
  - rewrite drop_0 in Ej. simpl in Ej.
    destruct (str_find 59 r); simplify_eq/=. eauto.
  - simpl. eauto.
Qed.

Lemma urlparse_path (url : str) (p : ParseResult) :
  urlparse url = Ret p -> netloc p <> [] ->
  empty_or_starts_with [47] (path p).
Proof.
  unfold urlparse, urlsplit.
  match goal with
  | |- context [let '(_, _) := ?X in _] => destruct X as [sch u1]
  end.
  destruct (str_eqb (take 2 u1) (py "//")); cbn [rbind].
  2:{ destruct (if char_in 35 u1 then _ else _) as [u2 fr].
      destruct (if char_in 63 u2 then _ else _) as [u3 q].
      cbn [_checknetloc truthy negb orb rbind].
      destruct (_ && _); [destruct (_splitparams u3)|];
        by intros [= <-]. }
  destruct (_splitnetloc u1 2) as [nl rest] eqn:Enl.
  apply splitnetloc_rest in Enl.
  destruct (_ || _); [done|].
  destruct (if char_in 91 nl && char_in 93 nl then _ else _);
    cbn [rbind]; [|done].
  destruct (if char_in 35 rest then _ else _) as [u2 fr] eqn:E2.
  destruct (if char_in 63 u2 then _ else _) as [u3 q] eqn:E3.
  destruct (_checknetloc nl); cbn [rbind]; [|done].
  assert (Hu3 : empty_or_starts_with [47] u3).
  { destruct Enl as [->|(c & r & -> & Hc)].
    - simpl in E2. simplify_eq. simpl in E3. simplify_eq. by left.
    - assert (Hu2 : u2 = [] \/ (exists r', u2 = c :: r') /\ c ≠ 35).
      { destruct (N.eqb_spec c 35) as [->|Hc35].
        - left. simpl in E2.
          by injection E2 as <- _.
        - right. split; [|done].
          destruct (char_in 35 (c :: r)); [|simplify_eq; eauto].
          destruct (str_partition 35 (c :: r)) as [[pa pf] pb] eqn:Ep.
          apply str_partition_head in Ep.
          apply N.eqb_neq in Hc35. rewrite Hc35 in Ep.
          by simplify_eq. }
      destruct Hu2 as [->|[[r' ->] Hc35]].
      + simpl in E3. simplify_eq. by left.
      + destruct (N.eqb_spec c 63) as [->|Hc63].
        * left. simpl in E3. by injection E3 as <- _.
        * assert (c = 47) as ->.
          { repeat (apply elem_of_cons in Hc as [?|Hc]; [done|]).
            by apply elem_of_nil in Hc. }
          right. exists 47.
          destruct (char_in 63 (47 :: r')).
          -- destruct (str_partition 63 (47 :: r')) as [[pa pf] pb] eqn:Ep.
             apply str_partition_head in Ep. simpl in Ep.
             destruct Ep as [r'' ->]. simplify_eq.
             exists r''. split; [done|constructor].
          -- simplify_eq. exists r'. split; [done|constructor]. }
  destruct (_ && _).
  - destruct (_splitparams u3) as [u4 pa] eqn:E4. intros [= <-] _. simpl.
    destruct Hu3 as [->|(c & r & -> & Hc)].
    + left. by injection E4 as <- _.
    + apply list_elem_of_singleton in Hc as ->.
      destruct (splitparams_head r) as [r' Hr']. rewrite E4 in Hr'.
      simpl in Hr'. subst u4. right. exists 47, r'. split; [done|constructor].
  - by intros [= <-] _.
Qed.

Lemma str_remove_app c a b : str_remove c (a ++ b) = str_remove c a ++ str_remove c b.
Proof. unfold str_remove. apply List.filter_app. Qed.

Lemma splitnetloc_youtu_be (id : str) :
  char_in 35 id = false -> char_in 63 id = false ->
  _splitnetloc (py "//youtu.be/" ++ id) 2 = (py "youtu.be", py "/" ++ id).
Proof.
  intros H35 H63. unfold _splitnetloc, str_find_from.
  replace (drop 2 (py "//youtu.be/" ++ id)) with (py "youtu.be/" ++ id)
    by reflexivity.
  replace (py "/?#") with [47; 63; 35] by reflexivity.
  cbn [fold_left].
  replace (str_find 47 (py "youtu.be/" ++ id)) with (Some 8%nat)
    by reflexivity.
  rewrite !(str_find_app _ (py "youtu.be/") id) by reflexivity.
  rewrite !str_find_None by done.
  cbn [option_map].
  replace (length (py "//youtu.be/" ++ id)) with (11 + length id)%nat
    by (rewrite length_app; reflexivity).
  replace (Nat.min (11 + length id) (2 + 8)) with 10%nat by lia.
  reflexivity.
Qed.

Lemma urlsplit_youtu_be (id : str) :
  plain_identifier id = true ->
  urlsplit (py "https://youtu.be/" ++ id)
  = Ret (py "https", py "youtu.be", py "/" ++ id, [], []).
Proof.
  intros Hid.
  assert (H9 := plain_identifier_char id 9 Hid eq_refl).
  assert (H13 := plain_identifier_char id 13 Hid eq_refl).
  assert (H10 := plain_identifier_char id 10 Hid eq_refl).
  assert (H35 := plain_identifier_char id 35 Hid eq_refl).
  assert (H63 := plain_identifier_char id 63 Hid eq_refl).
  unfold urlsplit.
  replace (str_lstrip is_c0_control_or_space (py "https://youtu.be/" ++ id))
    with (py "https://youtu.be/" ++ id) by reflexivity.
  unfold unsafe_url_bytes_to_remove. cbn [fold_left].
  rewrite !str_remove_app, !(str_remove_id _ id) by done.
  replace (str_remove 10 (str_remove 13 (str_remove 9 (py "https://youtu.be/"))))
    with (py "https://youtu.be/") by reflexivity.
  replace (str_find 58 (py "https://youtu.be/" ++ id)) with (Some 5%nat)
    by reflexivity.
  replace (take 5 (py "https://youtu.be/" ++ id)) with (py "https")
    by reflexivity.
  replace (drop 6 (py "https://youtu.be/" ++ id)) with (py "//youtu.be/" ++ id)
    by reflexivity.
  replace (match py "https://youtu.be/" ++ id with
           | [] => false | c :: _ => is_ascii_alpha c end) with true
    by reflexivity.
  replace (forallb (λ c : N, char_in c scheme_chars) (py "https")) with true
    by reflexivity.
  replace (str_lower (py "https")) with (py "https") by reflexivity.
  cbn [andb].
  replace (str_eqb (take 2 (py "//youtu.be/" ++ id)) (py "//")) with true
    by reflexivity.
  rewrite splitnetloc_youtu_be by done.
  replace (char_in 91 (py "youtu.be")) with false by reflexivity.
  replace (char_in 93 (py "youtu.be")) with false by reflexivity.
  cbn [andb orb negb rbind].
  rewrite char_in_app, H35.
  replace (char_in 35 (py "/")) with false by reflexivity.
  cbn [orb]. cbv beta iota.
  rewrite char_in_app, H63.
  replace (char_in 63 (py "/")) with false by reflexivity.
  reflexivity.
Qed.

Lemma urlparse_youtu_be (id : str) :
  plain_identifier id = true ->
  urlparse (py "https://youtu.be/" ++ id)
  = Ret {| scheme := py "https"; netloc := py "youtu.be";
           path := py "/" ++ id; params := []; query := [];
           fragment := [] |}.
Proof.
  intros Hid. unfold urlparse. rewrite urlsplit_youtu_be by done.
  cbn [rbind].
  rewrite char_in_app, (plain_identifier_char id 59 Hid eq_refl).
  replace (char_in 59 (py "/")) with false by reflexivity.
  rewrite andb_false_r. reflexivity.
Qed.

Lemma extract_video_id_youtu_be (id : str) :
  plain_identifier id = true ->
  Summarizer.extract_video_id (py "https://youtu.be/" ++ id) = Ret (Some id).
Proof.
  intros Hid. unfold Summarizer.extract_video_id.
  rewrite urlparse_youtu_be by done. reflexivity.
Qed.

End url_facts.

(** ** The video identifier *)

Section video_identifier.
Context `{Platform}.
Import urllib_parse.

Lemma extract_video_id_raises (url : str) (e : exc) :
  urlparse url = Raise e -> Summarizer.extract_video_id url = Raise e.
Proof. unfold Summarizer.extract_video_id. by intros ->. Qed.

Lemma extract_video_id_short_host (url : str) (p : ParseResult) :
  urlparse url = Ret p -> hostname p = Some (py "youtu.be") ->
  Summarizer.extract_video_id url = Ret (Some (drop 1 (path p))).
Proof.
  intros Hp Hh. unfold Summarizer.extract_video_id. rewrite Hp. cbn [rbind].
  by rewrite bool_decide_eq_true_2.
Qed.

Lemma extract_video_id_watch_host (url : str) (p : ParseResult) :
  urlparse url = Ret p ->
  hostname p = Some (py "youtube.com")
  \/ hostname p = Some (py "www.youtube.com") ->
  Summarizer.extract_video_id url
  = Ret (first_value (py "v") (parse_qsl (query p))).
Proof.
  intros Hp Hh. unfold Summarizer.extract_video_id. rewrite Hp. cbn [rbind].
  rewrite bool_decide_eq_false_2 by (by destruct Hh as [-> | ->]).
  rewrite bool_decide_eq_true_2
    by (destruct Hh as [-> | ->]; [right; left|left]).
  rewrite parse_qs_get.
  by destruct (first_value (py "v") (parse_qsl (query p))).
Qed.

Lemma extract_video_id_other_host (url : str) (p : ParseResult) :
  urlparse url = Ret p ->
  hostname p <> Some (py "youtu.be") ->
  hostname p <> Some (py "youtube.com") ->
  hostname p <> Some (py "www.youtube.com") ->
  Summarizer.extract_video_id url = Ret None.
Proof.
  intros Hp H1 H2 H3. unfold Summarizer.extract_video_id. rewrite Hp.
  cbn [rbind]. rewrite bool_decide_eq_false_2 by done.
  rewrite bool_decide_eq_false_2; [done|].
  intros Hin. repeat (apply elem_of_cons in Hin as [?|Hin]; [done|]).
  by apply elem_of_nil in Hin.
Qed.

(** C6. [extract_video_id] is a function of the URL alone. When the host
    of the parsed URL is [youtu.be] it returns the path without its first
    character, and the path is empty or starts with the separator [/];
    when the host is [youtube.com] or [www.youtube.com] it returns the
    first value of the query parameter [v], or [None] if there is none;
    for any other host it returns [None]. So for every identifier [id]
    that can stand as a path, the URL [https://youtu.be/id] gives [id],
    and the empty path gives the empty identifier. *)
Theorem extract_video_id_spec :
  (forall url p,
     urlparse url = Ret p ->
     (hostname p = Some (py "youtu.be") ->
        Summarizer.extract_video_id url = Ret (Some (drop 1 (path p)))
        /\ (path p = [] \/ path p = 47 :: drop 1 (path p)))
     /\ (hostname p = Some (py "youtube.com")
         \/ hostname p = Some (py "www.youtube.com") ->
         Summarizer.extract_video_id url
         = Ret (first_value (py "v") (parse_qsl (query p))))
     /\ (hostname p <> Some (py "youtu.be") ->
         hostname p <> Some (py "youtube.com") ->
         hostname p <> Some (py "www.youtube.com") ->
         Summarizer.extract_video_id url = Ret None))
  /\ (forall id,
        plain_identifier id = true ->
        Summarizer.extract_video_id (py "https://youtu.be/" ++ id)
        = Ret (Some id))
  /\ Summarizer.extract_video_id (py "https://youtu.be") = Ret (Some []).
Proof.
  split; [|split].
  - intros url p Hp. split; [|split].
    + intros Hh. split; [by apply extract_video_id_short_host|].
      destruct (urlparse_path url p Hp (hostname_netloc p _ Hh))
        as [->|(c & r & -> & Hc)]; [by left|].
      apply list_elem_of_singleton in Hc as ->. by right.
    + by apply extract_video_id_watch_host.
    + by apply extract_video_id_other_host.
  - apply extract_video_id_youtu_be.
  - reflexivity.
Qed.

(** C10. The three variants of [extract_video_id] return the same result
    on every URL. *)
Theorem extract_video_id_variants_agree (url : str) :
  Summarizer.extract_video_id url = Summarizero2.extract_video_id url
  /\ Summarizer.extract_video_id url = Summary.extract_video_id url.
Proof. split; reflexivity. Qed.

End video_identifier.

(** The parts of two example URLs. *)
Example urlparse_short :
  @urllib_parse.urlparse example_platform (py "https://youtu.be/abc123?t=42")
  = Ret {| urllib_parse.scheme := py "https";
           urllib_parse.netloc := py "youtu.be";
           urllib_parse.path := py "/abc123";
           urllib_parse.params := [];
           urllib_parse.query := py "t=42";
           urllib_parse.fragment := [] |}.
Proof. vm_compute. reflexivity. Qed.

Example urlparse_watch :
  @urllib_parse.urlparse example_platform
    (py "https://www.youtube.com/watch?v=abc&t=1")
  = Ret {| urllib_parse.scheme := py "https";
           urllib_parse.netloc := py "www.youtube.com";
           urllib_parse.path := py "/watch";
           urllib_parse.params := [];
           urllib_parse.query := py "v=abc&t=1";
           urllib_parse.fragment := [] |}.
Proof. vm_compute. reflexivity. Qed.

(** What follows [?] is not part of the path, and a parameter with a
    blank value is left out by [parse_qs]. *)
Example extract_short_with_query :
  @Summarizer.extract_video_id example_platform
    (py "https://youtu.be/abc123?t=42")
  = Ret (Some (py "abc123")).
Proof. vm_compute. reflexivity. Qed.

Example extract_blank_value :
  @Summarizer.extract_video_id example_platform
    (py "https://www.youtube.com/watch?v=")
  = Ret None.
Proof. vm_compute. reflexivity. Qed.

Example extract_other_host :
  @Summarizer.extract_video_id example_platform (py "https://vimeo.com/123")
  = Ret None.
Proof. vm_compute. reflexivity. Qed.

(** Witness of C6: a short URL and a watch URL. *)
Lemma extract_video_id_spec_witness :
  @Summarizer.extract_video_id example_platform (py "https://youtu.be/abc123")
  = Ret (Some (py "abc123"))
  /\ @Summarizer.extract_video_id example_platform
       (py "https://www.youtube.com/watch?v=abc&t=1")
     = Ret (Some (py "abc")).
Proof.
  split.
  - apply (proj1 (proj2 (@extract_video_id_spec example_platform))
             (py "abc123")).
    vm_compute. reflexivity.
  - apply (proj1 (proj2 (proj1 (@extract_video_id_spec example_platform)
                           _ _ urlparse_watch))).
    right. vm_compute. reflexivity.
Defined.

(** ** The script monad *)

Section monad_rules.
Context {A B : Type}.
Implicit Types (w : world).

Lemma post_ret (a : A) w Q : Q (Ret a) w -> post (ret a) w Q.
Proof. done. Qed.

Lemma post_raise (e : exc) w (Q : result A -> world -> Prop) :
  Q (Raise e) w -> post (raise e) w Q.
Proof. done. Qed.

Lemma post_lift (r : result A) w Q : Q r w -> post (lift r) w Q.
Proof. done. Qed.

Lemma post_bind (m : M A) (k : A -> M B) w Q :
  post m w (fun r w' => match r with
                        | Ret a => post (k a) w' Q
                        | Raise e => Q (Raise e) w'
                        end) ->
  post (bind m k) w Q.
Proof. unfold post, bind. by destruct (m w) as [[a|e] w']. Qed.

Lemma post_try (body : M A) (handler : exc -> M A) w Q :
  post body w (fun r w' => match r with
                           | Ret a => Q (Ret a) w'
                           | Raise e => post (handler e) w' Q
                           end) ->
  post (try_except body handler) w Q.
Proof. unfold post, try_except. by destruct (body w) as [[a|e] w']. Qed.

Lemma post_mono (m : M A) w (Q Q' : result A -> world -> Prop) :
  post m w Q -> (forall r w', Q r w' -> Q' r w') -> post m w Q'.
Proof. unfold post. auto. Qed.

End monad_rules.

Lemma post_get w (Q : result session_state -> world -> Prop) :
  Q (Ret (session w)) w -> post get_session w Q.
Proof. done. Qed.

Lemma post_put (s : session_state) w (Q : result unit -> world -> Prop) :
  Q (Ret tt) {| session := s; trace := trace w |} -> post (put_session s) w Q.
Proof. done. Qed.

Lemma post_emit (e : event) w (Q : result unit -> world -> Prop) :
  Q (Ret tt) {| session := session w; trace := trace w ++ [e] |} ->
  post (emit e) w Q.
Proof. done. Qed.

Lemma post_displays (m : M unit) w (Q : result unit -> world -> Prop) :
  only_displays m ->
  (forall evs, forallb is_display evs = true ->
     Q (Ret tt) {| session := session w; trace := trace w ++ evs |}) ->
  post m w Q.
Proof.
  intros Hm HQ. destruct (Hm w) as (evs & E & D).
  unfold post. rewrite E. by apply HQ.
Qed.

(** One step of symbolic execution. *)
Ltac wp_step :=
  lazymatch goal with
  | |- post (bind _ _) _ _ => apply post_bind
  | |- post (try_except _ _) _ _ => apply post_try
  | |- post (ret _) _ _ => apply post_ret
  | |- post (raise _) _ _ => apply post_raise
  | |- post (lift _) _ _ => apply post_lift
  | |- post get_session _ _ => apply post_get
  | |- post (put_session _) _ _ => apply post_put
  | |- post (emit _) _ _ => apply post_emit
  end.
Ltac wp := repeat (wp_step; cbv beta iota).

Lemma only_displays_ret : only_displays (ret tt).
Proof. intros w. exists []. rewrite app_nil_r. by destruct w. Qed.

Lemma only_displays_emit (e : event) :
  is_display e = true -> only_displays (emit e).
Proof. intros He w. exists [e]. simpl. by rewrite He. Qed.

Lemma only_displays_bind (m : M unit) (k : unit -> M unit) :
  only_displays m -> (forall u, only_displays (k u)) ->
  only_displays (bind m k).
Proof.
  intros Hm Hk w. destruct (Hm w) as (e1 & E1 & D1).
  destruct (Hk tt {| session := session w; trace := trace w ++ e1 |})
    as (e2 & E2 & D2).
  exists (e1 ++ e2). unfold bind. rewrite E1, E2. simpl.
  by rewrite app_assoc, forallb_app, D1, D2.
Qed.

Lemma only_displays_when (b : bool) (m : M unit) :
  (b = true -> only_displays m) -> only_displays (when b m).
Proof. destruct b; [auto|]. intros _. apply only_displays_ret. Qed.

Lemma only_displays_for_each {A} (xs : list A) (body : A -> M unit) :
  (forall x, only_displays (body x)) -> only_displays (for_each xs body).
Proof.
  intros Hb. induction xs as [|x xs IH]; simpl.
  - apply only_displays_ret.
  - apply only_displays_bind; [apply Hb|]. by intros _.
Qed.

Lemma only_displays_get (k : session_state -> M unit) :
  (forall st, only_displays (k st)) -> only_displays (bind get_session k).
Proof. intros Hk w. unfold bind, get_session. apply Hk. Qed.

Ltac displays :=
  repeat first
    [ apply only_displays_ret
    | apply only_displays_emit; reflexivity
    | apply only_displays_get; intros ?
    | apply only_displays_bind; [|intros _]
    | apply only_displays_for_each; intros [? [? ?]]
    | apply only_displays_when; intros _ ].

(** The outcome of a run, from the outcome of the script. *)
Lemma post_run (m : M unit) (st : session_state)
    (Q : result unit -> world -> Prop) :
  post m {| session := st; trace := [] |} Q ->
  exists r st' evs, m {| session := st; trace := [] |}
                    = (r, {| session := st'; trace := evs |})
                    /\ Q r {| session := st'; trace := evs |}.
Proof.
  unfold post. destruct (m _) as [r [st' evs]]. intros HQ.
  by exists r, st', evs.
Qed.

(** ** The Generate Summary button *)

Ltac unfold_calls :=
  unfold Summarizer.fetch_transcript, Summarizer.generate_summary,
    Summarizer.answer_question_from_summary,
    Summarizero2.fetch_transcript, Summarizero2.generate_summary,
    Summarizero2.answer_question_from_summary,
    Summary.fetch_transcript, Summary.generate_summary,
    call_get_transcript, call_chat_completion,
    set_summary, set_qa_active, qa_history_append, qa_history_clear;
  cbv zeta.

Ltac click_generate :=
  unfold Summarizer.generate_summary_button,
    Summarizero2.generate_summary_button, Summary.generate_summary_button;
  cbn [GenerateSummary generate_clicked youtube_url user_prompt
       selected_model when].

(** The handler of an exception of the Generate Summary button. *)
Ltac handle_exception :=
  lazymatch goal with
  | |- post (match exc_kind ?e with _ => _ end) _ _ =>
      destruct (exc_kind e); wp
  | _ => idtac
  end.

Ltac generate_succeeds Hout :=
  let Hurl := fresh "Hurl" in let Hex := fresh "Hex" in
  let Hvid := fresh "Hvid" in let Htr := fresh "Htr" in
  let Hllm := fresh "Hllm" in
  inversion Hout as [| | | | |? ? ? Hurl Hex Hvid Htr Hllm]; subst;
  cbn in Hex, Htr, Hllm;
  click_generate; rewrite Hurl; cbn [negb];
  wp; rewrite Hex; cbn [truthy_value]; rewrite Hvid;
  cbn [negb default from_option id];
  unfold_calls; wp; rewrite Htr; wp; cbn [api_key]; rewrite Hllm; wp.

Ltac generate_fails Hout :=
  click_generate;
  inversion Hout as [Hurl|e Hurl Hex|v Hurl Hex Hv|vid e Hurl Hex Hvid Htr
                    |vid frags e Hurl Hex Hvid Htr Hllm|];
    subst; cbn in *; rewrite Hurl; cbn [negb]; wp; try done;
    rewrite Hex; wp; handle_exception; try done;
    [ rewrite Hv; cbn [negb]; by wp
    | cbn [truthy_value]; rewrite Hvid; cbn [negb default from_option id];
      unfold_calls; wp; rewrite Htr; wp; cbn [exc_kind]; by wp
    | cbn [truthy_value]; rewrite Hvid; cbn [negb default from_option id];
      unfold_calls; wp; rewrite Htr; wp; cbn [api_key]; rewrite Hllm; wp;
      handle_exception; by wp ].

Section generate_button.
Context `{Platform}.

Lemma OpenAI_configured env key :
  os_getenv env api_key_variable = Some key ->
  OpenAI env (os_getenv env (py "OPENAI_API_KEY")) = Ret {| api_key := key |}.
Proof. unfold api_key_variable. by intros ->. Qed.

Lemma generate_outcome_total (u : service_use) env key p :
  exists o, generate_outcome u env key p o.
Proof.
  destruct (truthy (str_strip (url_field p))) eqn:Hurl;
    [|by exists None; apply blank_url].
  destruct (extract u (url_field p)) as [v|e] eqn:Hex;
    [|by exists None; eapply url_rejected].
  destruct (truthy_value v) eqn:Hv;
    [|by exists None; eapply no_identifier].
  destruct v as [vid|]; [|done]. cbn in Hv.
  destruct (get_transcript env vid (proxies_for u env)) as [frags|e] eqn:Htr;
    [|by exists None; eapply transcript_unavailable].
  destruct (chat_completions_create env key
              (request_for u (prompt_field p)
                 (str_join (py " ") (List.map text frags)) (model_field p)))
    as [reply|e] eqn:Hllm.
  - exists (Some reply). by eapply summary_generated.
  - exists None. by eapply llm_request_failed.
Qed.

Lemma summarizer_button_success env key p reply w :
  generate_outcome summarizer_use env key p (Some reply) ->
  post (Summarizer.generate_summary_button env {| api_key := key |}
          (GenerateSummary p)) w
    (fun r w' =>
       r = Ret tt
       /\ session w' = {| summary := reply; qa_active := true;
                          qa_history := qa_history (session w) |}).
Proof. intros Hout. generate_succeeds Hout. done. Qed.

Lemma summarizero2_button_success env key p reply w :
  generate_outcome summarizero2_use env key p (Some reply) ->
  post (Summarizero2.generate_summary_button env {| api_key := key |}
          (GenerateSummary p)) w
    (fun r w' =>
       r = Ret tt
       /\ session w' = {| summary := reply; qa_active := true;
                          qa_history := qa_history (session w) |}).
Proof. intros Hout. generate_succeeds Hout. done. Qed.

Lemma summarizer_button_failure env key p w :
  generate_outcome summarizer_use env key p None ->
  post (Summarizer.generate_summary_button env {| api_key := key |}
          (GenerateSummary p)) w
    (fun r w' => r = Ret tt /\ session w' = session w).
Proof. intros Hout. generate_fails Hout. Qed.

Lemma summarizero2_button_failure env key p w :
  generate_outcome summarizero2_use env key p None ->
  post (Summarizero2.generate_summary_button env {| api_key := key |}
          (GenerateSummary p)) w
    (fun r w' => r = Ret tt /\ session w' = session w).
Proof. intros Hout. generate_fails Hout. Qed.

End generate_button.

(** ** The summary and the Q&A interface *)

Ltac unfold_interface :=
  unfold Summarizer.display_summary, Summarizero2.display_summary,
    Summarizer.qa_interface, Summarizero2.qa_interface.

Section interface.
Context `{Platform}.

Lemma summarizer_display_summary : only_displays Summarizer.display_summary.
Proof. unfold_interface. displays. Qed.

Lemma summarizero2_display_summary :
  only_displays Summarizero2.display_summary.
Proof. unfold_interface. displays. Qed.

(** The Q&A interface when no question is asked and Done is not clicked. *)
Lemma summarizer_qa_idle env c i :
  submit_question i && truthy (str_strip (user_question i)) = false ->
  done_clicked i = false ->
  only_displays (Summarizer.qa_interface env c i).
Proof. intros Hq Hd. unfold_interface. rewrite Hq, Hd. displays. Qed.

Lemma summarizero2_qa_idle env c i :
  submit_question i && truthy (str_strip (user_question i)) = false ->
  done_clicked i = false ->
  only_displays (Summarizero2.qa_interface env c i).
Proof. intros Hq Hd. unfold_interface. rewrite Hq, Hd. displays. Qed.

(** The Q&A interface when its guard fails. *)
Lemma summarizer_qa_inactive env c i :
  forall w, qa_active (session w) && truthy (summary (session w)) = false ->
  Summarizer.qa_interface env c i w = (Ret tt, w).
Proof.
  intros w Hg. unfold Summarizer.qa_interface, bind, get_session.
  by rewrite Hg.
Qed.

(** The history is displayed, and nothing else happens. *)
Lemma show_history (h : list (str * str)) :
  only_displays
    (for_each (enumerate (rev h))
       (fun '(i, (q, a)) =>
          emit (st_markdown (py "**Q" ++ str_of_nat (i + 1) ++ py ":** " ++ q)) ;;
          emit (st_markdown (py "**A" ++ str_of_nat (i + 1) ++ py ":** " ++ a)) ;;
          emit (st_markdown (py "---")))).
Proof. displays. Qed.

(** The Q&A interface when Done is clicked. *)
Lemma summarizer_qa_done env c p w :
  qa_active (session w) = true -> truthy (summary (session w)) = true ->
  post (Summarizer.qa_interface env c (EndSession p)) w
    (fun r w' =>
       r = Ret tt
       /\ session w' = {| summary := summary (session w); qa_active := false;
                          qa_history := [] |}
       /\ exists evs, trace w' = trace w ++ evs
                      /\ forallb is_display evs = true).
Proof.
  intros Hq Hs. unfold Summarizer.qa_interface.
  wp. rewrite Hq, Hs. cbn [andb when EndSession submit_question done_clicked].
  wp. apply post_displays; [apply show_history|]. intros evs Hevs.
  unfold_calls. wp. cbn [session trace summary qa_active qa_history].
  split; [done|]. split; [done|].
  eexists. rewrite <- !app_assoc. split; [reflexivity|].
  rewrite !forallb_app, Hevs. reflexivity.
Qed.

(** The Q&A interface in every case: the summary stays, and Q&A is not
    activated. *)
Lemma summarizer_qa_frame env c i w :
  post (Summarizer.qa_interface env c i) w
    (fun r w' =>
       summary (session w') = summary (session w)
       /\ (qa_active (session w') = true -> qa_active (session w) = true)).
Proof.
  unfold Summarizer.qa_interface. wp.
  destruct (qa_active (session w)) eqn:Hq;
    [|cbn [andb when]; wp; split; [done|congruence]].
  destruct (truthy (summary (session w))); [|by cbn [andb when]; wp].
  cbn [andb when]. wp.
  destruct (submit_question i && truthy (str_strip (user_question i))).
  - cbn [when]. unfold_calls. wp.
    destruct (chat_completions_create _ _ _) as [answer|e]; wp; [|done].
    apply post_displays; [apply show_history|]. intros evs _.
    destruct (done_clicked i); cbn [when]; by wp.
  - cbn [when]. wp.
    apply post_displays; [apply show_history|]. intros evs _.
    destruct (done_clicked i); cbn [when]; unfold_calls; by wp.
Qed.

End interface.

(** ** Runs of the scripts *)

Ltac unfold_run :=
  unfold Summarizer.step, Summarizer.run, Summarizer.script,
    Summarizero2.step, Summarizero2.run, Summarizero2.script,
    Summary.run, Summary.script.

Section runs.
Context `{Platform}.

(** A run of [summarizer.py] in which only the Generate Summary button is
    clicked. *)
Lemma summarizer_run_generate env key p st (Q : session_state -> Prop) :
  os_getenv env api_key_variable = Some key ->
  (forall w, session w = st ->
     post (Summarizer.generate_summary_button env {| api_key := key |}
             (GenerateSummary p)) w
       (fun r w' => r = Ret tt /\ Q (session w'))) ->
  exists evs st',
    Summarizer.run env (GenerateSummary p) st
    = (Ret tt, {| session := st'; trace := evs |}) /\ Q st'.
Proof.
  intros Hkey Hgen. unfold_run.
  destruct (post_run (Summarizer.script env (GenerateSummary p)) st
              (fun r w' => r = Ret tt /\ Q (session w')))
    as (r & st' & evs & Hrun & -> & HQ); [|by exists evs, st'].
  unfold_run. wp. rewrite (OpenAI_configured _ key Hkey). wp.
  eapply post_mono; [by apply Hgen|]. intros r w1 [-> HQ]. wp.
  apply post_displays; [apply summarizer_display_summary|].
  intros evs1 _. wp.
  apply post_displays; [by apply summarizer_qa_idle|].
  by intros evs2 _.
Qed.

(** The same for [summarizero2.py]. *)
Lemma summarizero2_run_generate env key p st (Q : session_state -> Prop) :
  os_getenv env api_key_variable = Some key ->
  (forall w, session w = st ->
     post (Summarizero2.generate_summary_button env {| api_key := key |}
             (GenerateSummary p)) w
       (fun r w' => r = Ret tt /\ Q (session w'))) ->
  exists evs st',
    Summarizero2.run env (GenerateSummary p) st
    = (Ret tt, {| session := st'; trace := evs |}) /\ Q st'.
Proof.
  intros Hkey Hgen. unfold_run.
  destruct (post_run (Summarizero2.script env (GenerateSummary p)) st
              (fun r w' => r = Ret tt /\ Q (session w')))
    as (r & st' & evs & Hrun & -> & HQ); [|by exists evs, st'].
  unfold_run. wp. rewrite (OpenAI_configured _ key Hkey). wp.
  eapply post_mono; [by apply Hgen|]. intros r w1 [-> HQ]. wp.
  apply post_displays; [apply summarizero2_display_summary|].
  intros evs1 _. wp.
  apply post_displays; [by apply summarizero2_qa_idle|].
  by intros evs2 _.
Qed.

(** C1. A successful GenerateSummary, from any session state, returns and
    leaves the new summary, Q&A active and the history as it was. *)
Theorem generate_summary_success env key p reply st :
  os_getenv env api_key_variable = Some key ->
  generate_outcome summarizer_use env key p (Some reply) ->
  exists evs,
    Summarizer.run env (GenerateSummary p) st
    = (Ret tt, {| session := {| summary := reply; qa_active := true;
                                qa_history := qa_history st |};
                  trace := evs |}).
Proof.
  intros Hkey Hout.
  destruct (summarizer_run_generate env key p st
              (fun st' => st' = {| summary := reply; qa_active := true;
                                   qa_history := qa_history st |}) Hkey)
    as (evs & st' & Hrun & ->).
  - intros w <-. by apply summarizer_button_success.
  - by exists evs.
Qed.

(** The same in [summarizero2.py]. *)
Lemma summarizero2_generate_summary_success env key p reply st :
  os_getenv env api_key_variable = Some key ->
  generate_outcome summarizero2_use env key p (Some reply) ->
  exists evs,
    Summarizero2.run env (GenerateSummary p) st
    = (Ret tt, {| session := {| summary := reply; qa_active := true;
                                qa_history := qa_history st |};
                  trace := evs |}).
Proof.
  intros Hkey Hout.
  destruct (summarizero2_run_generate env key p st
              (fun st' => st' = {| summary := reply; qa_active := true;
                                   qa_history := qa_history st |}) Hkey)
    as (evs & st' & Hrun & ->).
  - intros w <-. by apply summarizero2_button_success.
  - by exists evs.
Qed.

(** C2. A GenerateSummary that fails at any step (blank URL, no
    identifier, transcript error, completion error) returns and leaves
    the session state as it was, in [summarizer.py] and in
    [summarizero2.py]. *)
Theorem generate_summary_all_or_nothing env key p st :
  os_getenv env api_key_variable = Some key ->
  (generate_outcome summarizer_use env key p None ->
   exists evs,
     Summarizer.run env (GenerateSummary p) st
     = (Ret tt, {| session := st; trace := evs |}))
  /\ (generate_outcome summarizero2_use env key p None ->
      exists evs,
        Summarizero2.run env (GenerateSummary p) st
        = (Ret tt, {| session := st; trace := evs |})).
Proof.
  intros Hkey. split; intros Hout.
  - destruct (summarizer_run_generate env key p st (fun st' => st' = st) Hkey)
      as (evs & st' & Hrun & ->); [|by exists evs].
    intros w <-. by apply summarizer_button_failure.
  - destruct (summarizero2_run_generate env key p st (fun st' => st' = st)
                Hkey)
      as (evs & st' & Hrun & ->); [|by exists evs].
    intros w <-. by apply summarizero2_button_failure.
Qed.

End runs.

(** Witness of C1: the scenario of the specification. *)
Lemma generate_summary_success_witness :
  exists evs,
    @Summarizer.run example_platform example_env
      (GenerateSummary example_page) initial_session
    = (Ret tt, {| session := {| summary := py "Summary text";
                                qa_active := true; qa_history := [] |};
                  trace := evs |}).
Proof.
  apply (@generate_summary_success example_platform example_env
           (py "sk-example") example_page (py "Summary text")
           initial_session).
  - vm_compute. reflexivity.
  - apply (summary_generated (@summarizer_use example_platform) example_env
             (py "sk-example") example_page (py "abc123")
             [ {| text := py "hello"; start := 0; duration := 1 |};
               {| text := py "world"; start := 1; duration := 1 |} ]
             (py "Summary text")); vm_compute; reflexivity.
Defined.

(** Witness of C2: the transcript service fails, in both variants. *)
Lemma generate_summary_all_or_nothing_witness :
  (exists evs,
     @Summarizer.run example_platform env_transcript_down
       (GenerateSummary example_page) initial_session
     = (Ret tt, {| session := initial_session; trace := evs |}))
  /\ (exists evs,
        @Summarizero2.run example_platform env_transcript_down
          (GenerateSummary example_page) initial_session
        = (Ret tt, {| session := initial_session; trace := evs |})).
Proof.
  assert (Hkey : os_getenv env_transcript_down api_key_variable
                 = Some (py "sk-example")) by (vm_compute; reflexivity).
  split.
  - apply (proj1 (@generate_summary_all_or_nothing example_platform
                    env_transcript_down (py "sk-example") example_page
                    initial_session Hkey)).
    apply (transcript_unavailable (@summarizer_use example_platform)
             env_transcript_down (py "sk-example") example_page
             (py "abc123") (Exc OtherException (py "no element found")));
      vm_compute; reflexivity.
  - apply (proj2 (@generate_summary_all_or_nothing example_platform
                    env_transcript_down (py "sk-example") example_page
                    initial_session Hkey)).
    apply (transcript_unavailable (@summarizero2_use example_platform)
             env_transcript_down (py "sk-example") example_page
             (py "abc123") (Exc OtherException (py "no element found")));
      vm_compute; reflexivity.
Defined.

(** ** AskQuestion and EndSession *)

Section questions.
Context `{Platform}.

Lemma summarizer_button_idle env c i :
  generate_clicked i = false ->
  Summarizer.generate_summary_button env c i = ret tt.
Proof. intros Hg. unfold Summarizer.generate_summary_button. by rewrite Hg. Qed.

(** The Q&A interface does nothing at all when its guard fails. *)
Lemma summarizer_qa_guard env c i w (Q : result unit -> world -> Prop) :
  qa_active (session w) && truthy (summary (session w)) = false ->
  Q (Ret tt) w -> post (Summarizer.qa_interface env c i) w Q.
Proof.
  intros Hg HQ. unfold post. by rewrite summarizer_qa_inactive.
Qed.

(** C5. AskQuestion when Q&A is not active, or with a blank question:
    the run returns, the session state is as it was, and the run only
    displays: it calls no service and shows no warning or error. *)
Theorem ask_question_ignored env key p st :
  os_getenv env api_key_variable = Some key ->
  qa_active st = false \/ truthy (str_strip (question_field p)) = false ->
  exists evs,
    Summarizer.run env (AskQuestion p) st
    = (Ret tt, {| session := st; trace := evs |})
    /\ forallb is_display evs = true.
Proof.
  intros Hkey Hcase.
  destruct (post_run (Summarizer.script env (AskQuestion p)) st
              (fun r w' => r = Ret tt /\ session w' = st
                           /\ forallb is_display (trace w') = true))
    as (r & st' & evs & Hrun & -> & Hst & Hevs).
  2:{ cbn in Hst, Hevs. subst st'. by exists evs. }
  unfold_run. wp. rewrite (OpenAI_configured _ key Hkey). wp.
  rewrite summarizer_button_idle by done. wp.
  apply post_displays; [apply summarizer_display_summary|].
  intros evs1 Hevs1. wp.
  destruct (truthy (str_strip (question_field p))) eqn:Hblank.
  - destruct Hcase as [Hq|?]; [|done].
    apply summarizer_qa_guard; [|done].
    cbn [session]. by rewrite Hq.
  - apply post_displays.
    + apply summarizer_qa_idle; [|done].
      cbn [AskQuestion submit_question user_question andb]. exact Hblank.
    + intros evs2 Hevs2. cbn.
      by rewrite forallb_app, Hevs1, Hevs2.
Qed.

(** A run in which only the Done button is clicked. *)
Lemma summarizer_run_end env key p st :
  os_getenv env api_key_variable = Some key ->
  qa_active st = true -> truthy (summary st) = true ->
  exists evs,
    Summarizer.run env (EndSession p) st
    = (Ret tt, {| session := {| summary := summary st; qa_active := false;
                                qa_history := [] |};
                  trace := evs |})
    /\ forallb is_display evs = true.
Proof.
  intros Hkey Hq Hs.
  destruct (post_run (Summarizer.script env (EndSession p)) st
              (fun r w' => r = Ret tt
                 /\ session w' = {| summary := summary st;
                                    qa_active := false; qa_history := [] |}
                 /\ forallb is_display (trace w') = true))
    as (r & st' & evs & Hrun & -> & Hst & Hevs).
  2:{ cbn in Hst, Hevs. subst st'. by exists evs. }
  unfold_run. wp. rewrite (OpenAI_configured _ key Hkey). wp.
  rewrite summarizer_button_idle by done. wp.
  apply post_displays; [apply summarizer_display_summary|].
  intros evs1 Hevs1. wp.
  eapply post_mono; [by apply summarizer_qa_done|].
  intros r w' (-> & -> & evs2 & -> & Hevs2). cbn.
  by rewrite forallb_app, Hevs1, Hevs2.
Qed.

End questions.

(** ** Reachable states *)

Section invariant.
Context `{Platform}.

(** The Generate Summary button in every case: it returns, and the
    session is as it was or holds a completion of the chat service. *)
Lemma summarizer_button_frame env c i w :
  post (Summarizer.generate_summary_button env c i) w
    (fun r w' =>
       r = Ret tt
       /\ (session w' = session w
           \/ exists req reply,
                chat_completions_create env (api_key c) req = Ret reply
                /\ session w' = {| summary := reply; qa_active := true;
                                   qa_history := qa_history (session w) |})).
Proof.
  unfold Summarizer.generate_summary_button.
  destruct (generate_clicked i); cbn [when]; [|wp; auto].
  destruct (truthy (str_strip (youtube_url i))); cbn [negb]; [|wp; auto].
  wp. destruct (Summarizer.extract_video_id (youtube_url i)) as [v|e];
    [|wp; auto].
  destruct (truthy_value v); cbn [negb]; [|wp; auto].
  unfold_calls. wp.
  destruct (get_transcript env _ None) as [frags|e]; [|wp; auto].
  wp. destruct (chat_completions_create env _ _) as [reply|e] eqn:Hllm;
    [|wp; auto].
  wp. cbn [session summary qa_active qa_history]. split; [done|].
  right. eauto.
Qed.

(** Every run of the script keeps the invariant, when the chat service
    does not answer with the empty text. *)
Lemma summarizer_step_invariant env i st :
  replies_nonempty env ->
  (qa_active st = true -> summary st <> []) ->
  qa_active (Summarizer.step env i st) = true ->
  summary (Summarizer.step env i st) <> [].
Proof.
  intros Henv Hinv.
  destruct (post_run (Summarizer.script env i) st
              (fun r w' => qa_active (session w') = true ->
                           summary (session w') <> []))
    as (r & st' & evs & Hrun & HQ).
  2:{ unfold Summarizer.step, Summarizer.run. by rewrite Hrun. }
  unfold_run. wp.
  destruct (OpenAI env _) as [c|e]; [|done].
  wp. eapply post_mono; [apply summarizer_button_frame|].
  intros r w1 [-> Hw1]. wp.
  apply post_displays; [apply summarizer_display_summary|].
  intros evs1 _. wp.
  eapply post_mono; [apply summarizer_qa_frame|].
  intros r w2 [Hs Hq]. cbn [session] in Hs, Hq.
  assert (qa_active (session w2) = true -> summary (session w2) <> []) as HQ.
  { intros Hq2. rewrite Hs. apply Hq in Hq2.
    destruct Hw1 as [Hw1|(req & reply & Hllm & Hw1)]; rewrite Hw1 in *.
    - by apply Hinv.
    - cbn. intros ->. by apply (Henv _ _ Hllm). }
  by destruct r.
Qed.

(** C3, as amended. In every state reachable from the initial session
    state by GenerateSummary, AskQuestion and EndSession, in environments
    whose chat service never answers with the empty text, [qa_active]
    implies that the summary is not empty. *)
Theorem qa_active_has_summary st :
  reachable replies_nonempty st ->
  qa_active st = true -> summary st <> [].
Proof.
  induction 1 as [|env i st Hst IH Henv Hact]; [done|].
  by apply summarizer_step_invariant.
Qed.

(** C8. Without the API key in the environment, every run of each of the
    three scripts ends at once with the configuration error of the
    client, which names the variable; the session state is as it was and
    nothing was called or displayed. *)
Theorem missing_api_key_stops_the_run env i st :
  os_getenv env api_key_variable = None ->
  exists msg,
    mentions api_key_variable msg
    /\ Summarizer.run env i st
       = (Raise (Exc OpenAIError msg), {| session := st; trace := [] |})
    /\ Summarizero2.run env i st
       = (Raise (Exc OpenAIError msg), {| session := st; trace := [] |})
    /\ Summary.run env i st
       = (Raise (Exc OpenAIError msg), {| session := st; trace := [] |}).
Proof.
  intros Hkey. eexists. split; [|split; [|split]].
  2-4: unfold_run; unfold bind, lift, OpenAI;
       change (py "OPENAI_API_KEY") with api_key_variable;
       rewrite Hkey; reflexivity.
  exists (py "The api_key client option must be set either by passing api_key to the client or by setting the "),
         (py " environment variable").
  vm_compute. reflexivity.
Qed.

End invariant.

(** The counterexample to C3: the chat service answers with the empty
    text, and Q&A is active without a summary. *)
Lemma qa_active_without_summary :
  let st := @Summarizer.step example_platform env_empty_reply
              (GenerateSummary example_page) initial_session in
  @reachable example_platform (fun _ => True) st
  /\ qa_active st = true /\ summary st = [].
Proof.
  split; [|split].
  - apply reachable_step; [apply reachable_initial|done|apply action_generate].
  - vm_compute. reflexivity.
  - vm_compute. reflexivity.
Qed.

(** Witness of C3: the scenario of the specification. *)
Lemma qa_active_has_summary_witness :
  summary (@Summarizer.step example_platform example_env
             (GenerateSummary example_page) initial_session) <> [].
Proof.
  apply (@qa_active_has_summary example_platform).
  - apply reachable_step; [apply reachable_initial| |apply action_generate].
    intros key req. vm_compute. discriminate.
  - vm_compute. reflexivity.
Defined.

(** Witness of C5: a question before any summary, and a blank question. *)
Lemma ask_question_ignored_witness :
  exists evs,
    @Summarizer.run example_platform example_env
      (AskQuestion example_page) initial_session
    = (Ret tt, {| session := initial_session; trace := evs |})
    /\ forallb is_display evs = true.
Proof.
  apply (@ask_question_ignored example_platform example_env
           (py "sk-example") example_page initial_session).
  - vm_compute. reflexivity.
  - left. reflexivity.
Defined.

(** Witness of C8. *)
Lemma missing_api_key_stops_the_run_witness :
  exists msg,
    mentions api_key_variable msg
    /\ @Summarizer.run example_platform env_without_key
         (GenerateSummary example_page) initial_session
       = (Raise (Exc OpenAIError msg),
          {| session := initial_session; trace := [] |})
    /\ @Summarizero2.run example_platform env_without_key
         (GenerateSummary example_page) initial_session
       = (Raise (Exc OpenAIError msg),
          {| session := initial_session; trace := [] |})
    /\ @Summary.run example_platform env_without_key
         (GenerateSummary example_page) initial_session
       = (Raise (Exc OpenAIError msg),
          {| session := initial_session; trace := [] |}).
Proof.
  apply (@missing_api_key_stops_the_run example_platform env_without_key).
  reflexivity.
Defined.

(** ** Fetching the transcript *)

Lemma str_join_space (texts : list str) :
  str_join (py " ") texts = joined_with_single_space texts.
Proof.
  destruct texts as [|t rest]; [done|]. revert t.
  induction rest as [|t' rest IH]; intros t.
  - cbn. by rewrite app_nil_r.
  - cbn [str_join joined_with_single_space List.map concat] in *.
    rewrite IH. reflexivity.
Qed.

(** C9. When the transcript service returns fragments, [fetch_transcript]
    returns their texts, in the order of the service, joined by a single
    space and otherwise unchanged, in each of the three variants. *)
Theorem fetch_transcript_joins env video_id fragments w :
  (get_transcript env video_id None = Ret fragments ->
   fst (Summarizer.fetch_transcript env video_id w)
   = Ret (joined_with_single_space (List.map text fragments))
   /\ fst (Summary.fetch_transcript env video_id w)
      = Ret (joined_with_single_space (List.map text fragments)))
  /\ (get_transcript env video_id (environment_proxies env) = Ret fragments ->
      fst (Summarizero2.fetch_transcript env video_id w)
      = Ret (joined_with_single_space (List.map text fragments))).
Proof.
  split; [intros Htr; split|intros Htr].
  all: unfold Summarizer.fetch_transcript, Summary.fetch_transcript,
         Summarizero2.fetch_transcript, call_get_transcript,
         environment_proxies in *;
       unfold try_except, bind, emit, lift, ret; cbv zeta;
       rewrite Htr; cbn [fst]; by rewrite str_join_space.
Qed.

(** The counterexample to C7: in [summarizer.py] the error of the
    transcript service is raised as it is, not as a [RuntimeError] with
    the hint. *)
Lemma fetch_transcript_unclassified :
  let r := fst (Summarizer.fetch_transcript env_transcript_down (py "abc123")
                  {| session := initial_session; trace := [] |}) in
  r = Raise (Exc OtherException (py "no element found"))
  /\ forall msg, r <> Raise (Exc RuntimeError msg).
Proof. split; [reflexivity|]. intros msg. vm_compute. discriminate. Qed.

(** Witness of C9: "hello" and "world" give "hello world". *)
Lemma fetch_transcript_joins_witness :
  fst (Summarizer.fetch_transcript example_env (py "abc123")
         {| session := initial_session; trace := [] |})
  = Ret (py "hello world").
Proof.
  apply (proj1 (proj1 (fetch_transcript_joins example_env (py "abc123")
                         [ {| text := py "hello"; start := 0; duration := 1 |};
                           {| text := py "world"; start := 1; duration := 1 |} ]
                         {| session := initial_session; trace := [] |})
                  eq_refl)).
Defined.

(** ** The scenario of the specification *)

(** GenerateSummary and then AskQuestion give the summary, Q&A active and
    one entry in the history. *)
Example end_to_end_scenario :
  @Summarizer.step example_platform scenario_env (AskQuestion example_page)
    (@Summarizer.step example_platform scenario_env
       (GenerateSummary example_page) initial_session)
  = example_active_session.
Proof. vm_compute. reflexivity. Qed.

(** The calls of a successful GenerateSummary: the transcript service,
    then the chat service. *)
Example generate_summary_calls :
  List.filter (fun e => negb (is_display e))
    (trace (snd (@Summarizer.run example_platform example_env
                   (GenerateSummary example_page) initial_session)))
  = [ CallGetTranscript (py "abc123") None;
      CallChatCompletion (py "sk-example")
        (Summarizer.summary_request
           (py "Summarize this video for a blog post.") (py "hello world")
           (py "gpt-3.5-turbo")) ].
Proof. vm_compute. reflexivity. Qed.

(** * Further properties *)

(** ** Blank input *)

Lemma str_lstrip_nil (chars : N -> bool) (s : str) :
  str_lstrip chars s = [] <-> forallb chars s = true.
Proof.
  induction s as [|x r IH]; simpl; [done|].
  destruct (chars x); simpl; [done|]. split; discriminate.
Qed.

Lemma str_lstrip_rest (chars : N -> bool) (s : str) :
  forallb chars s = false -> forallb chars (str_lstrip chars s) = false.
Proof.
  induction s as [|x r IH]; simpl; [done|].
  destruct (chars x) eqn:Hx; simpl; [done|]. by rewrite Hx.
Qed.

Lemma forallb_rev (chars : N -> bool) (s : str) :
  forallb chars (rev s) = forallb chars s.
Proof.
  induction s as [|x r IH]; simpl; [done|].
  rewrite forallb_app, IH. simpl. rewrite andb_true_r. apply andb_comm.
Qed.

(** X1. The test [not s.strip()] of the two handlers holds exactly of the
    strings made of whitespace only (the empty string among them). *)
Theorem blank_iff_whitespace (s : str) :
  truthy (str_strip s) = false <-> forallb isspace s = true.
Proof.
  assert (Hnil : forall l : str, truthy l = false <-> l = [])
    by (intros [|? ?]; simpl; split; done).
  rewrite Hnil. unfold str_strip, str_rstrip.
  split.
  - intros Hs.
    assert (str_lstrip isspace (rev (str_lstrip isspace s)) = []) as Hl.
    { apply (f_equal (@rev N)) in Hs. by rewrite rev_involutive in Hs. }
    apply str_lstrip_nil in Hl. rewrite forallb_rev in Hl.
    destruct (forallb isspace s) eqn:Hall; [done|].
    apply str_lstrip_rest in Hall. congruence.
  - intros Hall. apply str_lstrip_nil in Hall. by rewrite Hall.
Qed.

(** Witness of X1: spaces, a tab and a line feed. *)
Lemma blank_iff_whitespace_witness :
  truthy (str_strip [32; 9; 10; 32]) = false.
Proof. apply (proj2 (blank_iff_whitespace [32; 9; 10; 32])). reflexivity. Defined.

(** ** More on the video identifier *)

Section more_video_identifier.
Context `{Platform}.

Lemma extract_video_id_returns (url : str) (p : ParseResult) :
  urlparse url = Ret p -> exists v, Summarizer.extract_video_id url = Ret v.
Proof.
  intros Hp.
  destruct (decide (hostname p = Some (py "youtu.be"))) as [Hs|Hs].
  { eexists. by apply (extract_video_id_short_host url p). }
  destruct (decide (hostname p = Some (py "youtube.com"))) as [Hw|Hw].
  { eexists. apply (extract_video_id_watch_host url p); [done|by left]. }
  destruct (decide (hostname p = Some (py "www.youtube.com"))) as [Hw'|Hw'].
  { eexists. apply (extract_video_id_watch_host url p); [done|by right]. }
  eexists. by apply (extract_video_id_other_host url p).
Qed.

(** X2. [extract_video_id] raises exactly when [urlparse] does, and then
    the same error: taking [[0]] of the values of [v] never fails. *)
Theorem extract_video_id_raises_iff (url : str) (e : exc) :
  Summarizer.extract_video_id url = Raise e <-> urlparse url = Raise e.
Proof.
  split; [|apply extract_video_id_raises].
  destruct (urlparse url) as [p|e'] eqn:Hp.
  - destruct (extract_video_id_returns url p Hp) as [v ->]. done.
  - rewrite (extract_video_id_raises url e' Hp). by intros [= ->].
Qed.

End more_video_identifier.

(** Witness of X2: an unmatched bracket in the host. *)
Lemma extract_video_id_raises_iff_witness :
  @Summarizer.extract_video_id example_platform (py "https://[youtu.be/abc")
  = Raise urllib_parse.invalid_ipv6_url.
Proof.
  apply (proj2 (@extract_video_id_raises_iff example_platform
                  (py "https://[youtu.be/abc") urllib_parse.invalid_ipv6_url)).
  vm_compute. reflexivity.
Defined.

(** ** Watch URLs *)

Lemma str_split_absent (c : N) (s : str) :
  char_in c s = false -> str_split c s = [s].
Proof.
  unfold char_in. induction s as [|x r IH]; simpl; [done|].
  rewrite orb_false_iff, N.eqb_neq. intros [Hx Hr].
  destruct (N.eqb_spec x c) as [->|_]; [done|]. by rewrite IH.
Qed.

Lemma str_split_first (c : N) (a r : str) :
  char_in c a = false -> str_split c (a ++ c :: r) = a :: str_split c r.
Proof.
  unfold char_in. induction a as [|x a IH]; simpl.
  - intros _. by rewrite N.eqb_refl.
  - rewrite orb_false_iff, N.eqb_neq. intros [Hx Ha].
    destruct (N.eqb_spec x c) as [->|_]; [done|]. by rewrite IH.
Qed.

Lemma str_replace_char_absent (a b : N) (s : str) :
  char_in a s = false -> str_replace_char a b s = s.
Proof.
  unfold char_in, str_replace_char. induction s as [|x r IH]; simpl; [done|].
  rewrite orb_false_iff, N.eqb_neq. intros [Hx Hr].
  destruct (N.eqb_spec x a) as [->|_]; [done|]. by rewrite IH.
Qed.

Lemma unquote_plain (s : str) : char_in 37 s = false -> unquote s = s.
Proof. intros Hs. unfold unquote. by rewrite Hs. Qed.

Lemma fold_left_appends {A X} (f : list A -> X -> list A) (xs : list X)
    (acc : list A) :
  (forall r x, f r x = r ++ f [] x) ->
  fold_left f xs acc = acc ++ fold_left f xs [].
Proof.
  intros Hf. revert acc. induction xs as [|x xs IH]; intros acc; simpl.
  - by rewrite app_nil_r.
  - rewrite IH, (IH (f [] x)), (Hf acc x). by rewrite app_assoc.
Qed.

Lemma plain_value_char (id : str) (c : N) :
  plain_value id = true -> char_in c (py "&#%+" ++ [9; 13; 10]) = true ->
  char_in c id = false.
Proof.
  unfold plain_value. intros [_ Hid]%andb_true_iff Hc.
  apply char_in_false. intros Hin.
  rewrite forallb_forall in Hid.
  apply list_elem_of_In in Hin. apply Hid in Hin. by rewrite Hc in Hin.
Qed.

Lemma more_parameters_char (rest : str) (c : N) :
  more_parameters rest = true -> char_in c [35; 9; 13; 10] = true ->
  char_in c rest = false.
Proof.
  unfold more_parameters. intros [_ Hid]%andb_true_iff Hc.
  apply char_in_false. intros Hin.
  rewrite forallb_forall in Hid.
  apply list_elem_of_In in Hin. apply Hid in Hin. by rewrite Hc in Hin.
Qed.

(** The first parameter of a query that starts with [v=id]. *)
Lemma parse_qsl_first (id rest : str) :
  plain_value id = true -> more_parameters rest = true ->
  exists pairs, parse_qsl (py "v=" ++ id ++ rest) = (py "v", id) :: pairs.
Proof.
  intros Hid Hrest.
  assert (H38 := plain_value_char id 38 Hid eq_refl).
  assert (H37 := plain_value_char id 37 Hid eq_refl).
  assert (H43 := plain_value_char id 43 Hid eq_refl).
  assert (truthy id = true) as Hne
    by (by apply andb_true_iff in Hid as [? _]).
  unfold parse_qsl.
  replace (truthy (py "v=" ++ id ++ rest)) with true by reflexivity.
  assert (exists fields,
            str_split 38 (py "v=" ++ id ++ rest) = (py "v=" ++ id) :: fields)
    as [fields ->].
  { assert (char_in 38 (py "v=" ++ id) = false) as Ha
      by (by rewrite char_in_app, H38).
    destruct rest as [|c rest'].
    - rewrite app_nil_r. rewrite str_split_absent by done. by eexists.
    - unfold more_parameters in Hrest.
      apply andb_true_iff in Hrest as [->%N.eqb_eq _].
      rewrite app_assoc, str_split_first by done. by eexists. }
  cbn [fold_left].
  replace (truthy (py "v=" ++ id)) with true by reflexivity. cbn [negb].
  replace (str_split1 61 (py "v=" ++ id)) with [py "v"; id] by reflexivity.
  rewrite Hne.
  replace (str_replace_char 43 32 (py "v")) with (py "v") by reflexivity.
  replace (unquote (py "v")) with (py "v") by reflexivity.
  rewrite (str_replace_char_absent 43 32 id H43), (unquote_plain id H37).
  rewrite fold_left_appends.
  - cbn [app]. by eexists.
  - intros r x. cbv beta.
    destruct (truthy x); cbn [negb]; [|symmetry; apply app_nil_r].
    destruct (str_split1 61 x) as [|nv0 [|nv1 [|? ?]]];
      try (symmetry; apply app_nil_r).
    destruct (truthy nv1); [reflexivity|symmetry; apply app_nil_r].
Qed.

Section watch_urls.
Context `{Platform}.

Lemma splitnetloc_watch (tail : str) :
  char_in 35 tail = false ->
  _splitnetloc (py "//www.youtube.com/watch?v=" ++ tail) 2
  = (py "www.youtube.com", py "/watch?v=" ++ tail).
Proof.
  intros H35. unfold _splitnetloc, str_find_from.
  replace (drop 2 (py "//www.youtube.com/watch?v=" ++ tail))
    with (py "www.youtube.com/watch?v=" ++ tail) by reflexivity.
  replace (py "/?#") with [47; 63; 35] by reflexivity.
  cbn [fold_left].
  replace (str_find 47 (py "www.youtube.com/watch?v=" ++ tail))
    with (Some 15%nat) by reflexivity.
  replace (str_find 63 (py "www.youtube.com/watch?v=" ++ tail))
    with (Some 21%nat) by reflexivity.
  rewrite (str_find_app 35 (py "www.youtube.com/watch?v=") tail)
    by reflexivity.
  rewrite str_find_None by done.
  cbn [option_map].
  replace (length (py "//www.youtube.com/watch?v=" ++ tail))
    with (26 + length tail)%nat by (rewrite length_app; reflexivity).
  replace (Nat.min (Nat.min (26 + length tail) (2 + 15)) (2 + 21))
    with 17%nat by lia.
  reflexivity.
Qed.

Lemma urlparse_watch_url (tail : str) :
  char_in 9 tail = false -> char_in 13 tail = false ->
  char_in 10 tail = false -> char_in 35 tail = false ->
  urlparse (py "https://www.youtube.com/watch?v=" ++ tail)
  = Ret {| scheme := py "https"; netloc := py "www.youtube.com";
           path := py "/watch"; params := []; query := py "v=" ++ tail;
           fragment := [] |}.
Proof.
  intros H9 H13 H10 H35. unfold urlparse, urlsplit.
  replace (str_lstrip is_c0_control_or_space
             (py "https://www.youtube.com/watch?v=" ++ tail))
    with (py "https://www.youtube.com/watch?v=" ++ tail) by reflexivity.
  unfold unsafe_url_bytes_to_remove. cbn [fold_left].
  rewrite !str_remove_app, !(str_remove_id _ tail) by done.
  replace (str_remove 10 (str_remove 13 (str_remove 9
             (py "https://www.youtube.com/watch?v="))))
    with (py "https://www.youtube.com/watch?v=") by reflexivity.
  replace (str_find 58 (py "https://www.youtube.com/watch?v=" ++ tail))
    with (Some 5%nat) by reflexivity.
  replace (take 5 (py "https://www.youtube.com/watch?v=" ++ tail))
    with (py "https") by reflexivity.
  replace (drop 6 (py "https://www.youtube.com/watch?v=" ++ tail))
    with (py "//www.youtube.com/watch?v=" ++ tail) by reflexivity.
  replace (match py "https://www.youtube.com/watch?v=" ++ tail with
           | [] => false | c :: _ => is_ascii_alpha c end) with true
    by reflexivity.
  replace (forallb (λ c : N, char_in c scheme_chars) (py "https")) with true
    by reflexivity.
  replace (str_lower (py "https")) with (py "https") by reflexivity.
  cbn [andb].
  replace (str_eqb (take 2 (py "//www.youtube.com/watch?v=" ++ tail))
             (py "//")) with true by reflexivity.
  rewrite splitnetloc_watch by done.
  replace (char_in 91 (py "www.youtube.com")) with false by reflexivity.
  replace (char_in 93 (py "www.youtube.com")) with false by reflexivity.
  cbn [andb orb negb rbind].
  rewrite char_in_app, H35.
  replace (char_in 35 (py "/watch?v=")) with false by reflexivity.
  cbn [orb]. cbv beta iota.
  replace (char_in 63 (py "/watch?v=" ++ tail)) with true by reflexivity.
  replace (str_partition 63 (py "/watch?v=" ++ tail))
    with (py "/watch", true, py "v=" ++ tail) by reflexivity.
  cbv beta iota.
  replace (_checknetloc (py "www.youtube.com")) with (Ret tt)
    by reflexivity.
  cbn [rbind].
  replace (char_in 59 (py "/watch")) with false by reflexivity.
  rewrite andb_false_r. reflexivity.
Qed.

(** X3. For every URL [https://www.youtube.com/watch?v=id], alone or
    followed by [&] and more parameters, [extract_video_id] returns [id],
    when [id] is a plain value: not empty and without [&], [#], [%], [+],
    tab, CR or LF. *)
Theorem extract_video_id_watch_url (id rest : str) :
  plain_value id = true -> more_parameters rest = true ->
  Summarizer.extract_video_id
    (py "https://www.youtube.com/watch?v=" ++ id ++ rest)
  = Ret (Some id).
Proof.
  intros Hid Hrest.
  assert (forall c, char_in c [35; 9; 13; 10] = true ->
                    char_in c (id ++ rest) = false) as Htail.
  { intros c Hc. rewrite char_in_app.
    rewrite (more_parameters_char rest c Hrest Hc).
    rewrite (plain_value_char id c Hid); [done|].
    revert Hc. unfold char_in. simpl.
    repeat (destruct (_ =? _); [by intros _; rewrite ?orb_true_r|]).
    done. }
  rewrite (extract_video_id_watch_host _ _
             (urlparse_watch_url (id ++ rest) (Htail 9 eq_refl)
                (Htail 13 eq_refl) (Htail 10 eq_refl) (Htail 35 eq_refl)))
    by (right; reflexivity).
  cbn [query]. destruct (parse_qsl_first id rest Hid Hrest) as [pairs ->].
  reflexivity.
Qed.

End watch_urls.

(** Witness of X3. *)
Lemma extract_video_id_watch_url_witness :
  @Summarizer.extract_video_id example_platform
    (py "https://www.youtube.com/watch?v=" ++ py "dQw4w9WgXcQ" ++ py "&t=42s")
  = Ret (Some (py "dQw4w9WgXcQ")).
Proof.
  apply (@extract_video_id_watch_url example_platform);
    vm_compute; reflexivity.
Defined.

(** ** What a run displays *)

Lemma world_eta (w : world) : {| session := session w; trace := trace w |} = w.
Proof. by destruct w. Qed.

(** The loop over the history, entry by entry. *)
Lemma show_entries (entries : list (str * str)) (n : nat) w
    (Q : result unit -> world -> Prop) :
  Q (Ret tt) {| session := session w;
                trace := trace w ++ history_lines (S n) entries |} ->
  post (for_each (combine (seq n (length entries)) entries)
          (fun '(i, (q, a)) =>
             emit (st_markdown (py "**Q" ++ str_of_nat (i + 1) ++ py ":** " ++ q)) ;;
             emit (st_markdown (py "**A" ++ str_of_nat (i + 1) ++ py ":** " ++ a)) ;;
             emit (st_markdown (py "---")))) w Q.
Proof.
  revert n w. induction entries as [|[q a] rest IH]; intros n w HQ.
  - cbn. apply post_ret. cbn in HQ. by rewrite app_nil_r, world_eta in HQ.
  - cbn [length seq combine for_each]. wp. apply IH.
    cbn [session trace history_lines entry_lines] in *.
    rewrite Nat.add_1_r. by rewrite <- !app_assoc.
Qed.

Lemma show_history_exact (h : list (str * str)) w
    (Q : result unit -> world -> Prop) :
  Q (Ret tt) {| session := session w;
                trace := trace w ++ history_lines 1 (rev h) |} ->
  post (for_each (enumerate (rev h))
          (fun '(i, (q, a)) =>
             emit (st_markdown (py "**Q" ++ str_of_nat (i + 1) ++ py ":** " ++ q)) ;;
             emit (st_markdown (py "**A" ++ str_of_nat (i + 1) ++ py ":** " ++ a)) ;;
             emit (st_markdown (py "---")))) w Q.
Proof. apply show_entries. Qed.

Section displays.
Context `{Platform}.

Lemma display_summary_exact w (Q : result unit -> world -> Prop) :
  Q (Ret tt) {| session := session w;
                trace := trace w ++ summary_lines (session w) |} ->
  post Summarizer.display_summary w Q.
Proof.
  unfold Summarizer.display_summary, summary_lines. intros HQ. wp.
  destruct (truthy (summary (session w))); cbn [when]; wp.
  - cbn [session trace]. by rewrite <- app_assoc.
  - by rewrite app_nil_r, world_eta in HQ.
Qed.

Lemma qa_idle_exact env c i w (Q : result unit -> world -> Prop) :
  submit_question i && truthy (str_strip (user_question i)) = false ->
  done_clicked i = false ->
  Q (Ret tt) {| session := session w;
                trace := trace w ++ qa_lines (session w) |} ->
  post (Summarizer.qa_interface env c i) w Q.
Proof.
  intros Hq Hd. unfold Summarizer.qa_interface, qa_lines. rewrite Hq, Hd.
  intros HQ. wp.
  destruct (qa_active (session w) && truthy (summary (session w)));
    cbn [when]; wp.
  - apply show_history_exact. wp.
    cbn [session trace]. by rewrite <- !app_assoc.
  - by rewrite app_nil_r, world_eta in HQ.
Qed.

Lemma summarizero2_display_eq :
  Summarizero2.display_summary = Summarizer.display_summary.
Proof. reflexivity. Qed.

Lemma summarizero2_qa_eq :
  @Summarizero2.qa_interface = @Summarizer.qa_interface.
Proof. reflexivity. Qed.

(** A run in which only the Generate Summary button is clicked, with what
    it displays after the handler. *)
Lemma summarizer_generate_trace env key p st st' evs0 :
  os_getenv env api_key_variable = Some key ->
  (forall w, session w = st ->
     post (Summarizer.generate_summary_button env {| api_key := key |}
             (GenerateSummary p)) w
       (fun r w' => r = Ret tt /\ session w' = st'
                    /\ trace w' = trace w ++ evs0)) ->
  Summarizer.run env (GenerateSummary p) st
  = (Ret tt, {| session := st';
                trace := evs0 ++ summary_lines st' ++ qa_lines st' |}).
Proof.
  intros Hkey Hgen.
  destruct (post_run (Summarizer.script env (GenerateSummary p)) st
              (fun r w' =>
                 r = Ret tt /\ session w' = st'
                 /\ trace w' = evs0 ++ summary_lines st' ++ qa_lines st'))
    as (r & s & evs & Hrun & -> & Hs & Hevs).
  2:{ cbn in Hs, Hevs. subst. exact Hrun. }
  unfold_run. wp. rewrite (OpenAI_configured _ key Hkey). wp.
  eapply post_mono; [by apply Hgen|]. intros r w1 (-> & Hs & Ht). wp.
  apply display_summary_exact. apply qa_idle_exact; [done..|].
  cbn [session trace] in *. rewrite Hs, Ht.
  by rewrite <- app_assoc.
Qed.

Lemma summarizero2_generate_trace env key p st st' evs0 :
  os_getenv env api_key_variable = Some key ->
  (forall w, session w = st ->
     post (Summarizero2.generate_summary_button env {| api_key := key |}
             (GenerateSummary p)) w
       (fun r w' => r = Ret tt /\ session w' = st'
                    /\ trace w' = trace w ++ evs0)) ->
  Summarizero2.run env (GenerateSummary p) st
  = (Ret tt, {| session := st';
                trace := evs0 ++ summary_lines st' ++ qa_lines st' |}).
Proof.
  intros Hkey Hgen.
  destruct (post_run (Summarizero2.script env (GenerateSummary p)) st
              (fun r w' =>
                 r = Ret tt /\ session w' = st'
                 /\ trace w' = evs0 ++ summary_lines st' ++ qa_lines st'))
    as (r & s & evs & Hrun & -> & Hs & Hevs).
  2:{ cbn in Hs, Hevs. subst. exact Hrun. }
  unfold_run. wp. rewrite (OpenAI_configured _ key Hkey). wp.
  eapply post_mono; [by apply Hgen|]. intros r w1 (-> & Hs & Ht). wp.
  rewrite summarizero2_display_eq, summarizero2_qa_eq.
  apply display_summary_exact. apply qa_idle_exact; [done..|].
  cbn [session trace] in *. rewrite Hs, Ht.
  by rewrite <- app_assoc.
Qed.

End displays.

(** ** The observable behaviour of GenerateSummary *)

Section generate_traces.
Context `{Platform}.

(** X4. A successful GenerateSummary calls the transcript service once,
    then the chat service once, with the request made of the prompt, the
    joined transcript and the selected model, and then displays the new
    state; [summarizer.py] passes no proxies, [summarizero2.py] those of
    the environment. *)
Theorem generate_summary_calls_in_order env key p st video_id fragments reply :
  os_getenv env api_key_variable = Some key ->
  truthy (str_strip (url_field p)) = true ->
  Summarizer.extract_video_id (url_field p) = Ret (Some video_id) ->
  truthy video_id = true ->
  let transcript := str_join (py " ") (List.map text fragments) in
  let st' := {| summary := reply; qa_active := true;
                qa_history := qa_history st |} in
  (get_transcript env video_id None = Ret fragments ->
   chat_completions_create env key
     (Summarizer.summary_request (prompt_field p) transcript (model_field p))
   = Ret reply ->
   Summarizer.run env (GenerateSummary p) st
   = (Ret tt,
      {| session := st';
         trace := [ CallGetTranscript video_id None;
                    CallChatCompletion key
                      (Summarizer.summary_request (prompt_field p) transcript
                         (model_field p)) ]
                  ++ summary_lines st' ++ qa_lines st' |}))
  /\ (get_transcript env video_id (environment_proxies env) = Ret fragments ->
      chat_completions_create env key
        (Summarizero2.summary_request (prompt_field p) transcript
           (model_field p))
      = Ret reply ->
      Summarizero2.run env (GenerateSummary p) st
      = (Ret tt,
         {| session := st';
            trace := [ CallGetTranscript video_id (environment_proxies env);
                       CallChatCompletion key
                         (Summarizero2.summary_request (prompt_field p)
                            transcript (model_field p)) ]
                     ++ summary_lines st' ++ qa_lines st' |})).
Proof.
  intros Hkey Hurl Hex Hvid transcript st'. split; intros Htr Hllm.
  - apply (summarizer_generate_trace env key p st); [done|]. intros w <-.
    click_generate. rewrite Hurl. cbn [negb]. wp. rewrite Hex.
    cbn [truthy_value]. rewrite Hvid. cbn [negb default from_option id].
    unfold_calls. wp. rewrite Htr. wp. cbn [api_key]. fold transcript.
    rewrite Hllm. wp. cbn [session trace summary qa_active qa_history].
    by rewrite <- app_assoc.
  - apply (summarizero2_generate_trace env key p st); [done|]. intros w <-.
    click_generate. rewrite Hurl. cbn [negb]. wp.
    change (Summarizero2.extract_video_id (url_field p))
      with (Summarizer.extract_video_id (url_field p)).
    rewrite Hex.
    cbn [truthy_value]. rewrite Hvid. cbn [negb default from_option id].
    unfold_calls. wp. unfold environment_proxies in Htr. rewrite Htr. wp.
    cbn [api_key]. fold transcript.
    rewrite Hllm. wp. cbn [session trace summary qa_active qa_history].
    by rewrite <- app_assoc.
Qed.

(** X5. GenerateSummary with a blank URL shows the warning, and with a URL
    that gives no identifier ([None] or the empty string) shows
    "Invalid YouTube URL format."; in both cases no service is called and
    the state stays, in [summarizer.py] and in [summarizero2.py]. *)
Theorem generate_summary_rejects_input env key p st :
  os_getenv env api_key_variable = Some key ->
  (truthy (str_strip (url_field p)) = false ->
   Summarizer.run env (GenerateSummary p) st
   = (Ret tt,
      {| session := st;
         trace := [st_warning (py "Please enter a YouTube video URL.")]
                  ++ summary_lines st ++ qa_lines st |})
   /\ Summarizero2.run env (GenerateSummary p) st
      = (Ret tt,
         {| session := st;
            trace := [st_warning (py "Please enter a YouTube video URL.")]
                     ++ summary_lines st ++ qa_lines st |}))
  /\ (forall v,
        truthy (str_strip (url_field p)) = true ->
        Summarizer.extract_video_id (url_field p) = Ret v ->
        truthy_value v = false ->
        Summarizer.run env (GenerateSummary p) st
        = (Ret tt,
           {| session := st;
              trace := [st_error (py "Invalid YouTube URL format.")]
                       ++ summary_lines st ++ qa_lines st |})
        /\ Summarizero2.run env (GenerateSummary p) st
           = (Ret tt,
              {| session := st;
                 trace := [st_error (py "Invalid YouTube URL format.")]
                          ++ summary_lines st ++ qa_lines st |})).
Proof.
  intros Hkey. split.
  - intros Hurl. split.
    + apply (summarizer_generate_trace env key p st); [done|]. intros w <-.
      click_generate. rewrite Hurl. cbn [negb]. by wp.
    + apply (summarizero2_generate_trace env key p st); [done|]. intros w <-.
      click_generate. rewrite Hurl. cbn [negb]. by wp.
  - intros v Hurl Hex Hv. split.
    + apply (summarizer_generate_trace env key p st); [done|]. intros w <-.
      click_generate. rewrite Hurl. cbn [negb]. wp. rewrite Hex, Hv.
      cbn [negb]. by wp.
    + apply (summarizero2_generate_trace env key p st); [done|]. intros w <-.
      click_generate. rewrite Hurl. cbn [negb]. wp.
      change (Summarizero2.extract_video_id (url_field p))
        with (Summarizer.extract_video_id (url_field p)).
      rewrite Hex, Hv. cbn [negb]. by wp.
Qed.

(** X6. When the transcript service fails with [e], GenerateSummary calls
    it once, does not call the chat service, and shows an error:
    [summarizer.py] "An error occurred: " and the text of [e],
    [summarizero2.py] the hint of [fetch_transcript] and the text of
    [e]. *)
Theorem generate_summary_reports_transcript_error env key p st video_id e :
  os_getenv env api_key_variable = Some key ->
  truthy (str_strip (url_field p)) = true ->
  Summarizer.extract_video_id (url_field p) = Ret (Some video_id) ->
  truthy video_id = true ->
  (get_transcript env video_id None = Raise e ->
   Summarizer.run env (GenerateSummary p) st
   = (Ret tt,
      {| session := st;
         trace := [ CallGetTranscript video_id None;
                    st_error ([cross_mark] ++ py " An error occurred: "
                              ++ exc_text e) ]
                  ++ summary_lines st ++ qa_lines st |}))
  /\ (get_transcript env video_id (environment_proxies env) = Raise e ->
      Summarizero2.run env (GenerateSummary p) st
      = (Ret tt,
         {| session := st;
            trace := [ CallGetTranscript video_id (environment_proxies env);
                       st_error ([cross_mark] ++ py " "
                                 ++ Summarizero2.transcript_hint
                                 ++ exc_text e) ]
                     ++ summary_lines st ++ qa_lines st |})).
Proof.
  intros Hkey Hurl Hex Hvid. split; intros Htr.
  - apply (summarizer_generate_trace env key p st); [done|]. intros w <-.
    click_generate. rewrite Hurl. cbn [negb]. wp. rewrite Hex.
    cbn [truthy_value]. rewrite Hvid. cbn [negb default from_option id].
    unfold_calls. wp. rewrite Htr. wp.
    cbn [session trace]. by rewrite <- app_assoc.
  - apply (summarizero2_generate_trace env key p st); [done|]. intros w <-.
    click_generate. rewrite Hurl. cbn [negb]. wp.
    change (Summarizero2.extract_video_id (url_field p))
      with (Summarizer.extract_video_id (url_field p)).
    rewrite Hex.
    cbn [truthy_value]. rewrite Hvid. cbn [negb default from_option id].
    unfold_calls. wp. unfold environment_proxies in Htr. rewrite Htr. wp.
    cbn [exc_kind exc_text]. wp.
    cbn [session trace]. by rewrite <- app_assoc.
Qed.

(** X7. When the chat service fails with [e] after the transcript was
    fetched, GenerateSummary has called both services once and shows an
    error: [summarizer.py] "An error occurred: "; [summarizero2.py] the
    text of [e] alone when [e] is a [RuntimeError], and otherwise
    "An unexpected error occurred: ". *)
Theorem generate_summary_reports_completion_error env key p st video_id
    fragments e :
  os_getenv env api_key_variable = Some key ->
  truthy (str_strip (url_field p)) = true ->
  Summarizer.extract_video_id (url_field p) = Ret (Some video_id) ->
  truthy video_id = true ->
  let transcript := str_join (py " ") (List.map text fragments) in
  (get_transcript env video_id None = Ret fragments ->
   chat_completions_create env key
     (Summarizer.summary_request (prompt_field p) transcript (model_field p))
   = Raise e ->
   Summarizer.run env (GenerateSummary p) st
   = (Ret tt,
      {| session := st;
         trace := [ CallGetTranscript video_id None;
                    CallChatCompletion key
                      (Summarizer.summary_request (prompt_field p) transcript
                         (model_field p));
                    st_error ([cross_mark] ++ py " An error occurred: "
                              ++ exc_text e) ]
                  ++ summary_lines st ++ qa_lines st |}))
  /\ (get_transcript env video_id (environment_proxies env) = Ret fragments ->
      chat_completions_create env key
        (Summarizero2.summary_request (prompt_field p) transcript
           (model_field p))
      = Raise e ->
      Summarizero2.run env (GenerateSummary p) st
      = (Ret tt,
         {| session := st;
            trace := [ CallGetTranscript video_id (environment_proxies env);
                       CallChatCompletion key
                         (Summarizero2.summary_request (prompt_field p)
                            transcript (model_field p));
                       st_error
                         ([cross_mark]
                          ++ (match exc_kind e with
                              | RuntimeError => py " "
                              | _ => py " An unexpected error occurred: "
                              end)
                          ++ exc_text e) ]
                     ++ summary_lines st ++ qa_lines st |})).
Proof.
  intros Hkey Hurl Hex Hvid transcript. split; intros Htr Hllm.
  - apply (summarizer_generate_trace env key p st); [done|]. intros w <-.
    click_generate. rewrite Hurl. cbn [negb]. wp. rewrite Hex.
    cbn [truthy_value]. rewrite Hvid. cbn [negb default from_option id].
    unfold_calls. wp. rewrite Htr. wp. cbn [api_key]. fold transcript.
    rewrite Hllm. wp. cbn [session trace]. by rewrite <- !app_assoc.
  - apply (summarizero2_generate_trace env key p st); [done|]. intros w <-.
    click_generate. rewrite Hurl. cbn [negb]. wp.
    change (Summarizero2.extract_video_id (url_field p))
      with (Summarizer.extract_video_id (url_field p)).
    rewrite Hex.
    cbn [truthy_value]. rewrite Hvid. cbn [negb default from_option id].
    unfold_calls. wp. unfold environment_proxies in Htr. rewrite Htr. wp.
    cbn [api_key]. fold transcript. rewrite Hllm. wp.
    destruct (exc_kind e); wp; cbn [session trace];
      by rewrite <- !app_assoc.
Qed.

End generate_traces.

(** Witness of X4: the scenario of the specification. *)
Lemma generate_summary_calls_in_order_witness :
  @Summarizer.run example_platform example_env (GenerateSummary example_page)
    initial_session
  = (Ret tt,
     {| session := {| summary := py "Summary text"; qa_active := true;
                      qa_history := [] |};
        trace := [ CallGetTranscript (py "abc123") None;
                   CallChatCompletion (py "sk-example")
                     (Summarizer.summary_request
                        (py "Summarize this video for a blog post.")
                        (py "hello world") (py "gpt-3.5-turbo"));
                   st_subheader ([memo] ++ py " Summary");
                   st_success (py "Summary text");
                   st_markdown (py "---");
                   st_subheader ([question_mark_ornament]
                                 ++ py " Ask a Question about the Video") ] |}).
Proof.
  apply (proj1 (@generate_summary_calls_in_order example_platform example_env
                  (py "sk-example") example_page initial_session
                  (py "abc123")
                  [ {| text := py "hello"; start := 0; duration := 1 |};
                    {| text := py "world"; start := 1; duration := 1 |} ]
                  (py "Summary text")
                  ltac:(vm_compute; reflexivity)
                  ltac:(vm_compute; reflexivity)
                  ltac:(vm_compute; reflexivity)
                  ltac:(vm_compute; reflexivity)));
    reflexivity.
Defined.

(** Witness of X5: a URL of spaces, and a URL of another site. *)
Lemma generate_summary_rejects_input_witness :
  @Summarizer.run example_platform example_env (GenerateSummary blank_page)
    initial_session
  = (Ret tt,
     {| session := initial_session;
        trace := [st_warning (py "Please enter a YouTube video URL.")] |})
  /\ @Summarizer.run example_platform example_env
       (GenerateSummary other_site_page) initial_session
     = (Ret tt,
        {| session := initial_session;
           trace := [st_error (py "Invalid YouTube URL format.")] |}).
Proof.
  assert (Hkey : os_getenv example_env api_key_variable
                 = Some (py "sk-example")) by (vm_compute; reflexivity).
  split.
  - apply (proj1 (proj1 (@generate_summary_rejects_input example_platform
                           example_env (py "sk-example") blank_page
                           initial_session Hkey)
                    ltac:(vm_compute; reflexivity))).
  - apply (proj1 (proj2 (@generate_summary_rejects_input example_platform
                           example_env (py "sk-example") other_site_page
                           initial_session Hkey)
                    None
                    ltac:(vm_compute; reflexivity)
                    ltac:(vm_compute; reflexivity)
                    ltac:(vm_compute; reflexivity))).
Defined.

(** Witness of X6: the transcript service is down. *)
Lemma generate_summary_reports_transcript_error_witness :
  @Summarizer.run example_platform env_transcript_down
    (GenerateSummary example_page) initial_session
  = (Ret tt,
     {| session := initial_session;
        trace := [ CallGetTranscript (py "abc123") None;
                   st_error ([cross_mark] ++ py " An error occurred: "
                             ++ py "no element found") ] |}).
Proof.
  apply (proj1 (@generate_summary_reports_transcript_error example_platform
                  env_transcript_down (py "sk-example") example_page
                  initial_session (py "abc123")
                  (Exc OtherException (py "no element found"))
                  ltac:(vm_compute; reflexivity)
                  ltac:(vm_compute; reflexivity)
                  ltac:(vm_compute; reflexivity)
                  ltac:(vm_compute; reflexivity))).
  reflexivity.
Defined.

(** Witness of X7: the chat service is down. *)
Lemma generate_summary_reports_completion_error_witness :
  @Summarizer.run example_platform env_chat_down
    (GenerateSummary example_page) initial_session
  = (Ret tt,
     {| session := initial_session;
        trace := [ CallGetTranscript (py "abc123") None;
                   CallChatCompletion (py "sk-example")
                     (Summarizer.summary_request
                        (py "Summarize this video for a blog post.")
                        (py "hello world") (py "gpt-3.5-turbo"));
                   st_error ([cross_mark] ++ py " An error occurred: "
                             ++ py "Connection error.") ] |}).
Proof.
  apply (proj1 (@generate_summary_reports_completion_error example_platform
                  env_chat_down (py "sk-example") example_page
                  initial_session (py "abc123")
                  [ {| text := py "hello"; start := 0; duration := 1 |};
                    {| text := py "world"; start := 1; duration := 1 |} ]
                  (Exc OtherException (py "Connection error."))
                  ltac:(vm_compute; reflexivity)
                  ltac:(vm_compute; reflexivity)
                  ltac:(vm_compute; reflexivity)
                  ltac:(vm_compute; reflexivity)));
    reflexivity.
Defined.

(** ** GenerateSummary as a transition *)

Section generate_transitions.
Context `{Platform}.

(** X8. With the API key set, a GenerateSummary always returns: no error
    of the URL, of the transcript service or of the chat service escapes
    the handler, in [summarizer.py] and in [summarizero2.py]. *)
Theorem generate_summary_always_returns env key p st :
  os_getenv env api_key_variable = Some key ->
  fst (Summarizer.run env (GenerateSummary p) st) = Ret tt
  /\ fst (Summarizero2.run env (GenerateSummary p) st) = Ret tt.
Proof.
  intros Hkey. split.
  - destruct (summarizer_run_generate env key p st (fun _ => True) Hkey)
      as (evs & st' & -> & _); [|done].
    intros w _.
    destruct (generate_outcome_total summarizer_use env key p)
      as [[reply|] Hout].
    + eapply post_mono; [by apply summarizer_button_success|].
      by intros r w' [-> _].
    + eapply post_mono; [by apply summarizer_button_failure|].
      by intros r w' [-> _].
  - destruct (summarizero2_run_generate env key p st (fun _ => True) Hkey)
      as (evs & st' & -> & _); [|done].
    intros w _.
    destruct (generate_outcome_total summarizero2_use env key p)
      as [[reply|] Hout].
    + eapply post_mono; [by apply summarizero2_button_success|].
      by intros r w' [-> _].
    + eapply post_mono; [by apply summarizero2_button_failure|].
      by intros r w' [-> _].
Qed.

Lemma summarizer_step_generate env key p reply st :
  os_getenv env api_key_variable = Some key ->
  generate_outcome summarizer_use env key p (Some reply) ->
  Summarizer.step env (GenerateSummary p) st
  = {| summary := reply; qa_active := true; qa_history := qa_history st |}.
Proof.
  intros Hkey Hout.
  destruct (summarizer_run_generate env key p st
              (fun st' => st' = {| summary := reply; qa_active := true;
                                   qa_history := qa_history st |}) Hkey)
    as (evs & st' & Hrun & ->).
  - intros w <-. by apply summarizer_button_success.
  - unfold Summarizer.step. by rewrite Hrun.
Qed.

(** X9. Two successful GenerateSummary in a row: the second summary
    replaces the first, and the history is the one before the first. *)
Theorem generate_summary_twice env1 key1 p1 reply1 env2 key2 p2 reply2 st :
  os_getenv env1 api_key_variable = Some key1 ->
  generate_outcome summarizer_use env1 key1 p1 (Some reply1) ->
  os_getenv env2 api_key_variable = Some key2 ->
  generate_outcome summarizer_use env2 key2 p2 (Some reply2) ->
  Summarizer.step env2 (GenerateSummary p2)
    (Summarizer.step env1 (GenerateSummary p1) st)
  = {| summary := reply2; qa_active := true; qa_history := qa_history st |}.
Proof.
  intros Hkey1 Hout1 Hkey2 Hout2.
  rewrite (summarizer_step_generate env1 key1 p1 reply1 st Hkey1 Hout1).
  by rewrite (summarizer_step_generate env2 key2 p2 reply2 _ Hkey2 Hout2).
Qed.

End generate_transitions.

Lemma example_outcome :
  generate_outcome (@summarizer_use example_platform) example_env
    (py "sk-example") example_page (Some (py "Summary text")).
Proof.
  apply (summary_generated (@summarizer_use example_platform) example_env
           (py "sk-example") example_page (py "abc123")
           [ {| text := py "hello"; start := 0; duration := 1 |};
             {| text := py "world"; start := 1; duration := 1 |} ]
           (py "Summary text")); vm_compute; reflexivity.
Defined.

(** Witness of X8. *)
Lemma generate_summary_always_returns_witness :
  fst (@Summarizer.run example_platform env_chat_down
         (GenerateSummary example_page) initial_session) = Ret tt
  /\ fst (@Summarizero2.run example_platform env_chat_down
            (GenerateSummary example_page) initial_session) = Ret tt.
Proof.
  apply (@generate_summary_always_returns example_platform env_chat_down
           (py "sk-example")).
  vm_compute. reflexivity.
Defined.

(** Witness of X9: the scenario, twice, after a question. *)
Lemma generate_summary_twice_witness :
  @Summarizer.step example_platform example_env (GenerateSummary example_page)
    (@Summarizer.step example_platform example_env
       (GenerateSummary example_page) example_active_session)
  = {| summary := py "Summary text"; qa_active := true;
       qa_history := qa_history example_active_session |}.
Proof.
  apply (@generate_summary_twice example_platform
           example_env (py "sk-example") example_page (py "Summary text")
           example_env (py "sk-example") example_page (py "Summary text")
           example_active_session).
  - vm_compute. reflexivity.
  - exact example_outcome.
  - vm_compute. reflexivity.
  - exact example_outcome.
Defined.

(** Witness of the success of [summarizero2.py]: the scenario. *)
Lemma summarizero2_generate_summary_success_witness :
  exists evs,
    @Summarizero2.run example_platform example_env
      (GenerateSummary example_page) initial_session
    = (Ret tt, {| session := {| summary := py "Summary text";
                                qa_active := true; qa_history := [] |};
                  trace := evs |}).
Proof.
  apply (@summarizero2_generate_summary_success example_platform example_env
           (py "sk-example") example_page (py "Summary text")
           initial_session).
  - vm_compute. reflexivity.
  - apply (summary_generated (@summarizero2_use example_platform) example_env
             (py "sk-example") example_page (py "abc123")
             [ {| text := py "hello"; start := 0; duration := 1 |};
               {| text := py "world"; start := 1; duration := 1 |} ]
             (py "Summary text")); vm_compute; reflexivity.
Defined.

(** ** Questions, the history and the end of a session *)

Section qa_transitions.
Context `{Platform}.

(** A run in which the Generate Summary button is not clicked, up to the
    Q&A interface. *)
Lemma summarizer_run_interface env key i st (Q : result unit -> world -> Prop) :
  os_getenv env api_key_variable = Some key ->
  generate_clicked i = false ->
  post (Summarizer.qa_interface env {| api_key := key |} i)
    {| session := st; trace := summary_lines st |} Q ->
  exists r st' evs,
    Summarizer.run env i st = (r, {| session := st'; trace := evs |})
    /\ Q r {| session := st'; trace := evs |}.
Proof.
  intros Hkey Hgen HQ. apply post_run.
  unfold_run. wp. rewrite (OpenAI_configured _ key Hkey). wp.
  rewrite summarizer_button_idle by done. wp.
  apply display_summary_exact. by wp.
Qed.

(** X10. AskQuestion with a question that is not blank, when Q&A is
    active and the summary is not empty: the chat service is called once,
    with the request made of the stored summary, the question and the
    selected model; when it answers, the entry is appended to the history,
    the summary and [qa_active] stay, and the history is displayed newest
    first: the new entry as Q1 and A1, the older ones after it, numbered
    from 2. *)
Theorem ask_question_appends env key p st answer :
  os_getenv env api_key_variable = Some key ->
  qa_active st = true -> truthy (summary st) = true ->
  truthy (str_strip (question_field p)) = true ->
  let req := Summarizer.answer_request (summary st) (question_field p)
               (model_field p) in
  chat_completions_create env key req = Ret answer ->
  let st' := {| summary := summary st; qa_active := true;
                qa_history := qa_history st ++ [(question_field p, answer)] |} in
  Summarizer.run env (AskQuestion p) st
  = (Ret tt,
     {| session := st';
        trace := summary_lines st
                 ++ [ st_markdown (py "---");
                      st_subheader ([question_mark_ornament]
                                    ++ py " Ask a Question about the Video");
                      CallChatCompletion key req ]
                 ++ entry_lines 1 (question_field p) answer
                 ++ history_lines 2 (rev (qa_history st)) |}).
Proof.
  intros Hkey Hq Hs Hblank req Hllm st'.
  destruct (summarizer_run_interface env key (AskQuestion p) st
              (fun r w' =>
                 r = Ret tt /\ session w' = st'
                 /\ trace w'
                    = summary_lines st
                      ++ [ st_markdown (py "---");
                           st_subheader
                             ([question_mark_ornament]
                              ++ py " Ask a Question about the Video");
                           CallChatCompletion key req ]
                      ++ history_lines 1 (rev (qa_history st'))) Hkey eq_refl)
    as (r & s & evs & Hrun & -> & Hst & Hevs).
  2:{ cbn in Hst, Hevs. subst. rewrite Hrun. do 3 f_equal.
      unfold st'. cbn [qa_history]. by rewrite rev_unit. }
  unfold Summarizer.qa_interface. wp. cbn [session]. rewrite Hq, Hs.
  cbn [andb when AskQuestion submit_question user_question selected_model
       done_clicked].
  wp. rewrite Hblank. cbn [when]. unfold_calls. wp. cbn [api_key session].
  fold req. rewrite Hllm. wp. cbn [session qa_history summary qa_active].
  rewrite Hq. fold st'.
  apply show_history_exact. wp. cbn [session trace].
  split; [done|]. split; [done|]. by rewrite <- !app_assoc.
Qed.

(** X11. When the chat service fails with [e] on a question, the run ends
    with [e]: the call is outside any handler. The session state is as it
    was, and neither the history nor the Done button is reached. *)
Theorem ask_question_error_escapes env key p st e :
  os_getenv env api_key_variable = Some key ->
  qa_active st = true -> truthy (summary st) = true ->
  truthy (str_strip (question_field p)) = true ->
  let req := Summarizer.answer_request (summary st) (question_field p)
               (model_field p) in
  chat_completions_create env key req = Raise e ->
  Summarizer.run env (AskQuestion p) st
  = (Raise e,
     {| session := st;
        trace := summary_lines st
                 ++ [ st_markdown (py "---");
                      st_subheader ([question_mark_ornament]
                                    ++ py " Ask a Question about the Video");
                      CallChatCompletion key req ] |}).
Proof.
  intros Hkey Hq Hs Hblank req Hllm.
  destruct (summarizer_run_interface env key (AskQuestion p) st
              (fun r w' =>
                 r = Raise e /\ session w' = st
                 /\ trace w'
                    = summary_lines st
                      ++ [ st_markdown (py "---");
                           st_subheader
                             ([question_mark_ornament]
                              ++ py " Ask a Question about the Video");
                           CallChatCompletion key req ]) Hkey eq_refl)
    as (r & s & evs & Hrun & -> & Hst & Hevs).
  2:{ cbn in Hst, Hevs. by subst. }
  unfold Summarizer.qa_interface. wp. cbn [session]. rewrite Hq, Hs.
  cbn [andb when AskQuestion submit_question user_question selected_model
       done_clicked].
  wp. rewrite Hblank. cbn [when]. unfold_calls. wp. cbn [api_key session].
  fold req. rewrite Hllm. cbn [session trace].
  split; [done|]. split; [done|]. by rewrite <- !app_assoc.
Qed.

(** The Q&A interface keeps: when Q&A is not active, the history is
    empty. *)
Lemma summarizer_qa_history_frame env c i w :
  (qa_active (session w) = false -> qa_history (session w) = []) ->
  post (Summarizer.qa_interface env c i) w
    (fun r w' => qa_active (session w') = false ->
                 qa_history (session w') = []).
Proof.
  intros Hinv. unfold Summarizer.qa_interface. wp.
  destruct (qa_active (session w)) eqn:Hq;
    [|cbn [andb when]; wp; rewrite Hq; auto].
  destruct (truthy (summary (session w)));
    [|cbn [andb when]; wp; rewrite Hq; discriminate].
  cbn [andb when]. wp.
  destruct (submit_question i && truthy (str_strip (user_question i))).
  - cbn [when]. unfold_calls. wp.
    destruct (chat_completions_create _ _ _) as [answer|e]; wp;
      [|cbn; rewrite Hq; discriminate].
    apply post_displays; [apply show_history|]. intros evs _.
    destruct (done_clicked i); cbn [when]; unfold_calls; wp;
      cbn; rewrite ?Hq; done.
  - cbn [when]. wp.
    apply post_displays; [apply show_history|]. intros evs _.
    destruct (done_clicked i); cbn [when]; unfold_calls; wp;
      cbn; rewrite ?Hq; done.
Qed.

Lemma summarizer_step_history_invariant env i st :
  (qa_active st = false -> qa_history st = []) ->
  qa_active (Summarizer.step env i st) = false ->
  qa_history (Summarizer.step env i st) = [].
Proof.
  intros Hinv.
  destruct (post_run (Summarizer.script env i) st
              (fun r w' => qa_active (session w') = false ->
                           qa_history (session w') = []))
    as (r & st' & evs & Hrun & HQ).
  2:{ unfold Summarizer.step, Summarizer.run. by rewrite Hrun. }
  unfold_run. wp.
  destruct (OpenAI env _) as [c|e]; [|done].
  wp. eapply post_mono; [apply summarizer_button_frame|].
  intros r w1 [-> Hw1]. wp.
  apply post_displays; [apply summarizer_display_summary|].
  intros evs1 _. wp.
  eapply post_mono.
  - apply summarizer_qa_history_frame. cbn [session].
    destruct Hw1 as [->|(req & reply & _ & ->)]; [done|]. discriminate.
  - intros r w2 HQ. by destruct r.
Qed.

(** X12. In every state reachable from the initial session state by
    GenerateSummary, AskQuestion and EndSession, in any environment, the
    history is empty whenever Q&A is not active: entries are appended only
    while it is active, and ending the session clears them. *)
Theorem inactive_history_is_empty st :
  reachable (fun _ => True) st ->
  qa_active st = false -> qa_history st = [].
Proof.
  induction 1 as [|env i st Hst IH _ _]; [done|].
  by apply summarizer_step_history_invariant.
Qed.

(** X13. A run in which no button is clicked calls no service, leaves
    the session state as it was and displays it: the summary if it is not
    empty, and the Q&A interface with the history if Q&A is active. *)
Theorem rerun_displays_state env key p st :
  os_getenv env api_key_variable = Some key ->
  Summarizer.run env (Rerun p) st
  = (Ret tt, {| session := st; trace := summary_lines st ++ qa_lines st |}).
Proof.
  intros Hkey.
  destruct (summarizer_run_interface env key (Rerun p) st
              (fun r w' => r = Ret tt /\ session w' = st
                           /\ trace w' = summary_lines st ++ qa_lines st)
              Hkey eq_refl)
    as (r & s & evs & Hrun & -> & Hst & Hevs).
  2:{ cbn in Hst, Hevs. by subst. }
  by apply qa_idle_exact.
Qed.

(** A run without the Generate Summary button, from a state in which the
    Q&A interface is not shown, leaves the state as it is. *)
Lemma summarizer_step_guard env i st :
  generate_clicked i = false ->
  qa_active st && truthy (summary st) = false ->
  Summarizer.step env i st = st.
Proof.
  intros Hgen Hg.
  destruct (os_getenv env api_key_variable) as [key|] eqn:Hkey.
  - destruct (summarizer_run_interface env key i st
                (fun r w' => session w' = st) Hkey Hgen)
      as (r & s & evs & Hrun & Hst).
    + by apply summarizer_qa_guard.
    + unfold Summarizer.step. by rewrite Hrun.
  - unfold Summarizer.step. unfold_run. unfold bind, lift, OpenAI.
    change (py "OPENAI_API_KEY") with api_key_variable.
    by rewrite Hkey.
Qed.

(** X14. EndSession is idempotent: after an EndSession with the API key
    set, a second one, on any page and in any environment, changes
    nothing. *)
Theorem end_session_idempotent env key p env' p' st :
  os_getenv env api_key_variable = Some key ->
  Summarizer.step env' (EndSession p') (Summarizer.step env (EndSession p) st)
  = Summarizer.step env (EndSession p) st.
Proof.
  intros Hkey.
  destruct (qa_active st && truthy (summary st)) eqn:Hg.
  - apply andb_prop in Hg as [Hq Hs].
    destruct (summarizer_run_end env key p st Hkey Hq Hs) as (evs & Hrun & _).
    unfold Summarizer.step at 2 3. rewrite Hrun. cbn [snd session].
    by apply summarizer_step_guard.
  - rewrite (summarizer_step_guard env (EndSession p) st) by done.
    by apply summarizer_step_guard.
Qed.

(** X15. [summarizero2.py] differs from [summarizer.py] in the handler of
    the Generate Summary button only: a run in which that button is not
    clicked is the same in both, so what holds of questions, of the end of
    a session and of a rerun in one holds in the other. *)
Theorem variants_agree_without_generate env i st :
  generate_clicked i = false ->
  Summarizero2.run env i st = Summarizer.run env i st.
Proof.
  intros Hgen. unfold_run.
  unfold Summarizero2.generate_summary_button,
    Summarizer.generate_summary_button.
  by rewrite Hgen.
Qed.

End qa_transitions.

(** Witness of X10: the question of the scenario. *)
Lemma ask_question_appends_witness :
  @Summarizer.run example_platform scenario_env (AskQuestion example_page)
    {| summary := py "Summary text"; qa_active := true; qa_history := [] |}
  = (Ret tt,
     {| session := example_active_session;
        trace := [ st_subheader ([memo] ++ py " Summary");
                   st_success (py "Summary text");
                   st_markdown (py "---");
                   st_subheader ([question_mark_ornament]
                                 ++ py " Ask a Question about the Video");
                   CallChatCompletion (py "sk-example")
                     (Summarizer.answer_request (py "Summary text")
                        (py "What is it about?") (py "gpt-3.5-turbo"));
                   st_markdown (py "**Q1:** What is it about?");
                   st_markdown (py "**A1:** It's about hello world");
                   st_markdown (py "---") ] |}).
Proof.
  apply (@ask_question_appends example_platform scenario_env (py "sk-example")
           example_page
           {| summary := py "Summary text"; qa_active := true;
              qa_history := [] |}
           (py "It's about hello world"));
    vm_compute; reflexivity.
Defined.

(** Witness of X11: a second question when the chat service is down. *)
Lemma ask_question_error_escapes_witness :
  @Summarizer.run example_platform env_chat_down (AskQuestion example_page)
    example_active_session
  = (Raise (Exc OtherException (py "Connection error.")),
     {| session := example_active_session;
        trace := [ st_subheader ([memo] ++ py " Summary");
                   st_success (py "Summary text");
                   st_markdown (py "---");
                   st_subheader ([question_mark_ornament]
                                 ++ py " Ask a Question about the Video");
                   CallChatCompletion (py "sk-example")
                     (Summarizer.answer_request (py "Summary text")
                        (py "What is it about?") (py "gpt-3.5-turbo")) ] |}).
Proof.
  apply (@ask_question_error_escapes example_platform env_chat_down
           (py "sk-example") example_page example_active_session
           (Exc OtherException (py "Connection error.")));
    vm_compute; reflexivity.
Defined.

(** Witness of X12: the scenario, to the end of the session. *)
Lemma inactive_history_is_empty_witness :
  qa_history
    (@Summarizer.step example_platform scenario_env (EndSession example_page)
       (@Summarizer.step example_platform scenario_env
          (AskQuestion example_page)
          (@Summarizer.step example_platform scenario_env
             (GenerateSummary example_page) initial_session)))
  = [].
Proof.
  apply (@inactive_history_is_empty example_platform).
  - repeat (apply reachable_step;
            [|exact I|first [apply action_generate | apply action_ask
                            | apply action_end]]).
    apply reachable_initial.
  - vm_compute. reflexivity.
Defined.

(** Witness of X13: a rerun after the question of the scenario. *)
Lemma rerun_displays_state_witness :
  @Summarizer.run example_platform example_env (Rerun example_page)
    example_active_session
  = (Ret tt,
     {| session := example_active_session;
        trace := [ st_subheader ([memo] ++ py " Summary");
                   st_success (py "Summary text");
                   st_markdown (py "---");
                   st_subheader ([question_mark_ornament]
                                 ++ py " Ask a Question about the Video");
                   st_markdown (py "**Q1:** What is it about?");
                   st_markdown (py "**A1:** It's about hello world");
                   st_markdown (py "---") ] |}).
Proof.
  apply (@rerun_displays_state example_platform example_env (py "sk-example")).
  vm_compute. reflexivity.
Defined.

(** Witness of X14: the end of the session of the scenario, twice. *)
Lemma end_session_idempotent_witness :
  @Summarizer.step example_platform env_without_key (EndSession blank_page)
    (@Summarizer.step example_platform example_env (EndSession example_page)
       example_active_session)
  = @Summarizer.step example_platform example_env (EndSession example_page)
      example_active_session.
Proof.
  apply (@end_session_idempotent example_platform example_env
           (py "sk-example")).
  vm_compute. reflexivity.
Defined.

(** Witness of X15: the question of the scenario in [summarizero2.py]. *)
Lemma variants_agree_without_generate_witness :
  @Summarizero2.run example_platform scenario_env (AskQuestion example_page)
    example_active_session
  = @Summarizer.run example_platform scenario_env (AskQuestion example_page)
      example_active_session.
Proof.
  apply (@variants_agree_without_generate example_platform).
  reflexivity.
Defined.

(** ** The script without a session: [summary.py] *)

Section stateless_script.
Context `{Platform}.

(** X16. In [summary.py] a successful GenerateSummary calls the
    transcript service, then the chat service, and displays the
    completion at once, whether it is empty or not; the session state is
    not written. *)
Theorem summary_script_displays_completion env key p st video_id fragments
    reply :
  os_getenv env api_key_variable = Some key ->
  truthy (str_strip (url_field p)) = true ->
  Summary.extract_video_id (url_field p) = Ret (Some video_id) ->
  truthy video_id = true ->
  get_transcript env video_id None = Ret fragments ->
  let req := Summary.summary_request (prompt_field p)
               (str_join (py " ") (List.map text fragments)) (model_field p) in
  chat_completions_create env key req = Ret reply ->
  Summary.run env (GenerateSummary p) st
  = (Ret tt,
     {| session := st;
        trace := [ CallGetTranscript video_id None;
                   CallChatCompletion key req;
                   st_subheader ([memo] ++ py " Summary");
                   st_success reply ] |}).
Proof.
  intros Hkey Hurl Hex Hvid Htr req Hllm.
  destruct (post_run (Summary.script env (GenerateSummary p)) st
              (fun r w' =>
                 r = Ret tt /\ session w' = st
                 /\ trace w' = [ CallGetTranscript video_id None;
                                 CallChatCompletion key req;
                                 st_subheader ([memo] ++ py " Summary");
                                 st_success reply ]))
    as (r & s & evs & Hrun & -> & Hs & Hevs).
  2:{ cbn in Hs, Hevs. subst. exact Hrun. }
  unfold Summary.script. wp. rewrite (OpenAI_configured _ key Hkey). wp.
  click_generate. rewrite Hurl. cbn [negb]. wp. rewrite Hex.
  cbn [truthy_value]. rewrite Hvid. cbn [negb default from_option id].
  unfold_calls. wp. rewrite Htr. wp. cbn [api_key]. fold req.
  rewrite Hllm. by wp.
Qed.

(** X17. With the API key set, every run of [summary.py] returns and
    leaves the session state as it was: the handler reports every error,
    and the script never writes the session. *)
Theorem summary_script_keeps_session env key i st :
  os_getenv env api_key_variable = Some key ->
  exists evs,
    Summary.run env i st = (Ret tt, {| session := st; trace := evs |}).
Proof.
  intros Hkey.
  destruct (post_run (Summary.script env i) st
              (fun r w' => r = Ret tt /\ session w' = st))
    as (r & s & evs & Hrun & -> & Hs).
  2:{ cbn in Hs. subst. by exists evs. }
  unfold Summary.script. wp. rewrite (OpenAI_configured _ key Hkey). wp.
  unfold Summary.generate_summary_button.
  destruct (generate_clicked i); cbn [when]; [|by wp].
  destruct (truthy (str_strip (youtube_url i))); cbn [negb]; [|by wp].
  wp. destruct (Summary.extract_video_id (youtube_url i)) as [v|e];
    [|by wp].
  destruct (truthy_value v); cbn [negb]; [|by wp].
  unfold_calls. wp.
  destruct (get_transcript env _ None) as [frags|e]; [|by wp].
  wp. destruct (chat_completions_create env _ _) as [reply|e]; by wp.
Qed.

End stateless_script.

(** Witness of X16: the scenario in [summary.py]. *)
Lemma summary_script_displays_completion_witness :
  @Summary.run example_platform example_env (GenerateSummary example_page)
    initial_session
  = (Ret tt,
     {| session := initial_session;
        trace := [ CallGetTranscript (py "abc123") None;
                   CallChatCompletion (py "sk-example")
                     (Summary.summary_request
                        (py "Summarize this video for a blog post.")
                        (py "hello world") (py "gpt-3.5-turbo"));
                   st_subheader ([memo] ++ py " Summary");
                   st_success (py "Summary text") ] |}).
Proof.
  apply (@summary_script_displays_completion example_platform example_env
           (py "sk-example") example_page initial_session (py "abc123")
           [ {| text := py "hello"; start := 0; duration := 1 |};
             {| text := py "world"; start := 1; duration := 1 |} ]
           (py "Summary text"));
    vm_compute; reflexivity.
Defined.

(** Witness of X17: the transcript service is down. *)
Lemma summary_script_keeps_session_witness :
  exists evs,
    @Summary.run example_platform env_transcript_down
      (GenerateSummary example_page) example_active_session
    = (Ret tt, {| session := example_active_session; trace := evs |}).
Proof.
  apply (@summary_script_keeps_session example_platform env_transcript_down
           (py "sk-example")).
  vm_compute. reflexivity.
Defined.

(** ** URLs that are always parsed *)

Lemma forallb_take (P : N -> bool) (n : nat) (s : str) :
  forallb P s = true -> forallb P (take n s) = true.
Proof.
  revert n. induction s as [|x r IH]; intros [|n]; simpl; try done.
  rewrite !andb_true_iff. intros [? ?]. auto.
Qed.

Lemma forallb_drop (P : N -> bool) (n : nat) (s : str) :
  forallb P s = true -> forallb P (drop n s) = true.
Proof.
  revert n. induction s as [|x r IH]; intros [|n]; simpl; try done.
  rewrite andb_true_iff. intros [? ?]. auto.
Qed.

Lemma forallb_lstrip (P chars : N -> bool) (s : str) :
  forallb P s = true -> forallb P (str_lstrip chars s) = true.
Proof.
  induction s as [|x r IH]; simpl; [done|].
  destruct (chars x); simpl; [|done].
  rewrite andb_true_iff. intros [_ ?]. auto.
Qed.

Lemma forallb_remove (P : N -> bool) (c : N) (s : str) :
  forallb P s = true -> forallb P (str_remove c s) = true.
Proof.
  unfold str_remove. induction s as [|x r IH]; simpl; [done|].
  rewrite andb_true_iff. intros [Hx Hr].
  destruct (negb (x =? c)); simpl; [rewrite Hx|]; auto.
Qed.

Lemma plain_chars (s : str) :
  forallb plain_char s = true ->
  char_in 91 s = false /\ char_in 93 s = false /\ isascii s = true.
Proof.
  unfold char_in, isascii, plain_char.
  induction s as [|x r IH]; cbn [existsb forallb]; [done|].
  rewrite !andb_true_iff, !negb_true_iff. intros [[[Ha H91] H93] Hr].
  destruct (IH Hr) as (-> & -> & ->). rewrite Ha.
  by rewrite (N.eqb_sym 91), (N.eqb_sym 93), H91, H93.
Qed.

Section plain_urls.
Context `{Platform}.

Lemma urlsplit_plain_url (url : str) :
  plain_url url = true -> exists r, urlsplit url = Ret r.
Proof.
  unfold plain_url, urlsplit. intros Hurl. cbv zeta.
  set (u0 := fold_left _ unsafe_url_bytes_to_remove _).
  assert (Hu0 : forallb plain_char u0 = true).
  { unfold u0, unsafe_url_bytes_to_remove. cbn [fold_left].
    by repeat apply forallb_remove; apply forallb_lstrip. }
  match goal with
  | |- context [let '(_, _) := ?X in _] =>
      assert (Hu1 : forallb plain_char (snd X) = true);
      [|destruct X as [sch u1]]
  end.
  { destruct (str_find 58 u0) as [[|i]|]; [done| |done].
    destruct (_ && _); [|done]. cbn [snd]. by apply forallb_drop. }
  cbn [snd] in Hu1.
  destruct (str_eqb (take 2 u1) (py "//")); cbn [rbind].
  - unfold _splitnetloc.
    match goal with |- context [drop 2 (take ?d u1)] => set (delim := d) end.
    assert (Hnl : forallb plain_char (drop 2 (take delim u1)) = true)
      by (by apply forallb_drop, forallb_take).
    apply plain_chars in Hnl as (H91 & H93 & Hascii).
    cbv beta iota. rewrite H91, H93. cbn [andb orb negb rbind].
    destruct (if char_in 35 (drop delim u1) then _ else _) as [u2 fr].
    destruct (if char_in 63 u2 then _ else _) as [u3 q].
    unfold _checknetloc. rewrite Hascii, orb_true_r. cbn [rbind]. eauto.
  - destruct (if char_in 35 u1 then _ else _) as [u2 fr].
    destruct (if char_in 63 u2 then _ else _) as [u3 q].
    cbn [_checknetloc truthy negb orb rbind]. eauto.
Qed.

Lemma urlparse_plain_url (url : str) :
  plain_url url = true -> exists p, urlparse url = Ret p.
Proof.
  intros Hurl.
  destruct (urlsplit_plain_url url Hurl) as [[[[[sch nl] u] q] fr] Hr].
  unfold urlparse. rewrite Hr. cbn [rbind].
  destruct (_ && _); [destruct (_splitparams u)|]; eauto.
Qed.

(** X18. On a URL of ASCII characters without square brackets
    [extract_video_id] never raises, in the three scripts: it returns an
    identifier or [None], so that the handler of the button answers such
    a URL with "Invalid YouTube URL format." or goes on to the transcript,
    never with the error of [urlparse]. *)
Theorem extract_video_id_plain_url (url : str) :
  plain_url url = true ->
  exists v,
    Summarizer.extract_video_id url = Ret v
    /\ Summarizero2.extract_video_id url = Ret v
    /\ Summary.extract_video_id url = Ret v.
Proof.
  intros Hurl. destruct (urlparse_plain_url url Hurl) as [p Hp].
  destruct (extract_video_id_returns url p Hp) as [v Hv].
  exists v. repeat split; exact Hv.
Qed.

End plain_urls.

(** Witness of X18: a watch URL with a play list. *)
Lemma extract_video_id_plain_url_witness :
  exists v,
    @Summarizer.extract_video_id example_platform
      (py "https://www.youtube.com/watch?list=PL1&v=abc123") = Ret v
    /\ @Summarizero2.extract_video_id example_platform
         (py "https://www.youtube.com/watch?list=PL1&v=abc123") = Ret v
    /\ @Summary.extract_video_id example_platform
         (py "https://www.youtube.com/watch?list=PL1&v=abc123") = Ret v.
Proof.
  apply (@extract_video_id_plain_url example_platform).
  vm_compute. reflexivity.
Defined.

(** ** The end of a session *)

Lemma post_conj {A} (m : M A) w (Q1 Q2 : result A -> world -> Prop) :
  post m w Q1 -> post m w Q2 -> post m w (fun r w' => Q1 r w' /\ Q2 r w').
Proof. unfold post. auto. Qed.

Section end_of_session.
Context `{Platform}.

(** The handler of the Generate Summary button never displays the heading
    of the Q&A interface. *)
Lemma summarizer_button_no_heading env c i w :
  post (Summarizer.generate_summary_button env c i) w
    (fun r w' =>
       r = Ret tt
       /\ existsb is_qa_heading (trace w') = existsb is_qa_heading (trace w)).
Proof.
  assert (Hadd : forall (evs : list event) e,
            is_qa_heading e = false ->
            existsb is_qa_heading (evs ++ [e]) = existsb is_qa_heading evs).
  { intros evs e He. rewrite existsb_app. cbn [existsb]. rewrite He.
    by rewrite !orb_false_r. }
  unfold Summarizer.generate_summary_button.
  destruct (generate_clicked i); cbn [when]; [|by wp].
  destruct (truthy (str_strip (youtube_url i))); cbn [negb];
    [|wp; cbn [trace]; by rewrite Hadd].
  wp. destruct (Summarizer.extract_video_id (youtube_url i)) as [v|e];
    [|wp; cbn [trace]; by rewrite Hadd].
  destruct (truthy_value v); cbn [negb]; [|wp; cbn [trace]; by rewrite Hadd].
  unfold_calls. wp.
  destruct (get_transcript env _ None) as [frags|e];
    [|wp; cbn [trace]; by rewrite !Hadd].
  wp. destruct (chat_completions_create env _ _) as [reply|e];
    wp; cbn [trace]; by rewrite !Hadd.
Qed.

(** A page shows the Q&A interface only if the run that made it left a
    summary that is not empty: the block is guarded by the summary (line
    108) and nothing in it writes the summary. *)
Lemma shown_interface_has_summary env i st :
  shows_qa_interface (Summarizer.run env i st) = true ->
  truthy (summary (Summarizer.step env i st)) = true.
Proof.
  unfold shows_qa_interface.
  destruct (post_run (Summarizer.script env i) st
              (fun r w' => existsb is_qa_heading (trace w') = true ->
                           truthy (summary (session w')) = true))
    as (r & st' & evs & Hrun & HQ).
  2:{ unfold Summarizer.step, Summarizer.run. by rewrite Hrun. }
  unfold_run. wp.
  destruct (OpenAI env _) as [c|e]; [|done].
  wp. eapply post_mono; [apply summarizer_button_no_heading|].
  intros r w1 [-> Hw1]. cbn [trace existsb] in Hw1. wp.
  apply display_summary_exact.
  set (w2 := {| session := session w1;
                trace := trace w1 ++ summary_lines (session w1) |}).
  assert (Hw2 : existsb is_qa_heading (trace w2) = false).
  { unfold w2. cbn [trace]. rewrite existsb_app, Hw1. unfold summary_lines.
    by destruct (truthy (summary (session w1))). }
  destruct (qa_active (session w2) && truthy (summary (session w2))) eqn:Hg.
  - apply andb_prop in Hg as [_ Hs].
    eapply post_mono; [apply summarizer_qa_frame|].
    intros r w3 [Hs3 _]. cbv beta.
    assert (existsb is_qa_heading (trace w3) = true ->
            truthy (summary (session w3)) = true) by (by rewrite Hs3).
    by destruct r.
  - apply summarizer_qa_guard; [done|]. by rewrite Hw2.
Qed.

(** C4. EndSession is the click of the Done button, which is on a page
    only when the run that made the page showed the Q&A interface. From
    every state with [qa_active] left by such a run, EndSession returns,
    sets [qa_active] to false, clears the history and leaves the summary
    as it was; in particular, a GenerateSummary that set the summary,
    followed by EndSession, leaves that summary, Q&A inactive and an empty
    history. *)
Theorem end_session_resets env key p :
  os_getenv env api_key_variable = Some key ->
  (forall env0 i0 st0,
     shows_qa_interface (Summarizer.run env0 i0 st0) = true ->
     let st := Summarizer.step env0 i0 st0 in
     qa_active st = true ->
     fst (Summarizer.run env (EndSession p) st) = Ret tt
     /\ Summarizer.step env (EndSession p) st
        = {| summary := summary st; qa_active := false; qa_history := [] |})
  /\ (forall env0 key0 p0 reply st0,
        os_getenv env0 api_key_variable = Some key0 ->
        generate_outcome summarizer_use env0 key0 p0 (Some reply) ->
        shows_qa_interface (Summarizer.run env0 (GenerateSummary p0) st0)
        = true ->
        Summarizer.step env (EndSession p)
          (Summarizer.step env0 (GenerateSummary p0) st0)
        = {| summary := reply; qa_active := false; qa_history := [] |}).
Proof.
  intros Hkey. split.
  - intros env0 i0 st0 Hpage st Hq.
    apply shown_interface_has_summary in Hpage. fold st in Hpage.
    destruct (summarizer_run_end env key p st Hkey Hq Hpage)
      as (evs & Hrun & _).
    unfold Summarizer.step at 1. by rewrite Hrun.
  - intros env0 key0 p0 reply st0 Hkey0 Hout Hpage.
    apply shown_interface_has_summary in Hpage.
    rewrite (summarizer_step_generate env0 key0 p0 reply st0 Hkey0 Hout)
      in *.
    destruct (summarizer_run_end env key p
                {| summary := reply; qa_active := true;
                   qa_history := qa_history st0 |} Hkey eq_refl Hpage)
      as (evs & Hrun & _).
    unfold Summarizer.step. by rewrite Hrun.
Qed.

(** The page of a run that leaves Q&A active and a summary shows the Q&A
    interface, when no button of the interface was clicked: the pages of
    the theorem above exist. *)
Lemma interface_shown_after_generate env key p reply st :
  os_getenv env api_key_variable = Some key ->
  generate_outcome summarizer_use env key p (Some reply) ->
  shows_qa_interface (Summarizer.run env (GenerateSummary p) st)
  = truthy reply.
Proof.
  intros Hkey Hout. unfold shows_qa_interface.
  destruct (post_run (Summarizer.script env (GenerateSummary p)) st
              (fun r w' => existsb is_qa_heading (trace w') = truthy reply))
    as (r & st' & evs & Hrun & HQ).
  2:{ unfold Summarizer.run. by rewrite Hrun. }
  unfold_run. wp. rewrite (OpenAI_configured _ key Hkey). wp.
  eapply post_mono.
  - apply post_conj; [apply summarizer_button_no_heading|].
    by apply summarizer_button_success.
  - intros r w1 [[_ Hw1] [-> Hs1]]. cbn [trace existsb] in Hw1. wp.
    apply display_summary_exact. apply qa_idle_exact; [done..|].
    cbn [session trace]. rewrite !existsb_app, Hw1, Hs1.
    unfold summary_lines, qa_lines. cbn [summary qa_active andb orb].
    destruct (truthy reply); [|done].
    cbn [existsb app].
    replace (is_qa_heading
               (st_subheader
                  (question_mark_ornament
                   :: py " Ask a Question about the Video")))
      with true by (vm_compute; reflexivity).
    by rewrite orb_true_l, !orb_true_r.
Qed.

End end_of_session.

(** Witness of C4: the scenario of the specification, from the page of
    its GenerateSummary. *)
Lemma end_session_resets_witness :
  @Summarizer.step example_platform example_env (EndSession example_page)
    (@Summarizer.step example_platform example_env
       (GenerateSummary example_page) initial_session)
  = {| summary := py "Summary text"; qa_active := false; qa_history := [] |}.
Proof.
  apply (proj2 (@end_session_resets example_platform example_env
                  (py "sk-example") example_page
                  ltac:(vm_compute; reflexivity))
           example_env (py "sk-example") example_page (py "Summary text")
           initial_session).
  - vm_compute. reflexivity.
  - exact example_outcome.
  - vm_compute. reflexivity.
Defined.

(** ** Failures of the transcript service *)

Section transcript_failures.
Context `{Platform}.

(** C7, as amended. When the transcript service fails with the error [e],
    [fetch_transcript] of [summarizero2.py] raises a [RuntimeError] whose
    text is the hint, which names the three causes, followed by the text
    of [e]; [fetch_transcript] of [summarizer.py] and of [summary.py]
    raises [e] itself, and the handler of the Generate Summary button of
    these two scripts reports it with the text of [e]: the run calls the
    transcript service, shows "An error occurred: " and that text, and
    leaves the session state as it was. *)
Theorem fetch_transcript_failure env video_id e w :
  (get_transcript env video_id (environment_proxies env) = Raise e ->
   fst (Summarizero2.fetch_transcript env video_id w)
   = Raise (Exc RuntimeError (Summarizero2.transcript_hint ++ exc_text e)))
  /\ (mentions (py "The video has no captions or captions are disabled.")
        Summarizero2.transcript_hint
      /\ mentions (py "Your IP is being blocked by YouTube")
           Summarizero2.transcript_hint
      /\ mentions (py "You are using a cloud provider IP")
           Summarizero2.transcript_hint)
  /\ (get_transcript env video_id None = Raise e ->
      fst (Summarizer.fetch_transcript env video_id w) = Raise e
      /\ fst (Summary.fetch_transcript env video_id w) = Raise e)
  /\ (get_transcript env video_id None = Raise e ->
      forall key p st,
        os_getenv env api_key_variable = Some key ->
        truthy (str_strip (url_field p)) = true ->
        Summarizer.extract_video_id (url_field p) = Ret (Some video_id) ->
        truthy video_id = true ->
        Summarizer.run env (GenerateSummary p) st
        = (Ret tt,
           {| session := st;
              trace := [ CallGetTranscript video_id None;
                         st_error ([cross_mark] ++ py " An error occurred: "
                                   ++ exc_text e) ]
                       ++ summary_lines st ++ qa_lines st |})
        /\ Summary.run env (GenerateSummary p) st
           = (Ret tt,
              {| session := st;
                 trace := [ CallGetTranscript video_id None;
                            st_error ([cross_mark]
                                      ++ py " An error occurred: "
                                      ++ exc_text e) ] |})).
Proof.
  split; [|split; [|split; [intros Htr; split|]]].
  - intros Htr.
    unfold Summarizero2.fetch_transcript, call_get_transcript,
      environment_proxies in *.
    unfold try_except, bind, emit, lift, raise. cbv zeta. by rewrite Htr.
  - split; [|split].
    + exists (py "Could not retrieve transcript. This may be due to:" ++ nl
              ++ py "- "),
        (nl ++ py "- Your IP is being blocked by YouTube (common on cloud hosting)." ++ nl
         ++ py "- You are using a cloud provider IP (e.g., Streamlit Cloud, AWS, etc.)."
         ++ nl ++ nl ++ py "Technical error: ").
      vm_compute. reflexivity.
    + exists (py "Could not retrieve transcript. This may be due to:" ++ nl
              ++ py "- The video has no captions or captions are disabled." ++ nl
              ++ py "- "),
        (py " (common on cloud hosting)." ++ nl
         ++ py "- You are using a cloud provider IP (e.g., Streamlit Cloud, AWS, etc.)."
         ++ nl ++ nl ++ py "Technical error: ").
      vm_compute. reflexivity.
    + exists (py "Could not retrieve transcript. This may be due to:" ++ nl
              ++ py "- The video has no captions or captions are disabled." ++ nl
              ++ py "- Your IP is being blocked by YouTube (common on cloud hosting)." ++ nl
              ++ py "- "),
        (py " (e.g., Streamlit Cloud, AWS, etc.)."
         ++ nl ++ nl ++ py "Technical error: ").
      vm_compute. reflexivity.
  - unfold Summarizer.fetch_transcript, call_get_transcript.
    unfold bind, emit, lift. by rewrite Htr.
  - unfold Summary.fetch_transcript, call_get_transcript.
    unfold bind, emit, lift. by rewrite Htr.
  - intros Htr key p st Hkey Hurl Hex Hvid. split.
    + apply (summarizer_generate_trace env key p st); [done|]. intros w0 <-.
      click_generate. rewrite Hurl. cbn [negb]. wp. rewrite Hex.
      cbn [truthy_value]. rewrite Hvid. cbn [negb default from_option id].
      unfold_calls. wp. rewrite Htr. wp.
      cbn [session trace]. by rewrite <- app_assoc.
    + destruct (post_run (Summary.script env (GenerateSummary p)) st
                  (fun r w' =>
                     r = Ret tt /\ session w' = st
                     /\ trace w'
                        = [ CallGetTranscript video_id None;
                            st_error ([cross_mark]
                                      ++ py " An error occurred: "
                                      ++ exc_text e) ]))
        as (r & s & evs & Hrun & -> & Hs & Hevs).
      2:{ cbn in Hs, Hevs. subst. exact Hrun. }
      unfold Summary.script. wp. rewrite (OpenAI_configured _ key Hkey). wp.
      click_generate. rewrite Hurl. cbn [negb]. wp.
      change (Summary.extract_video_id (url_field p))
        with (Summarizer.extract_video_id (url_field p)).
      rewrite Hex.
      cbn [truthy_value]. rewrite Hvid. cbn [negb default from_option id].
      unfold_calls. wp. rewrite Htr. by wp.
Qed.

End transcript_failures.

(** Witness of C7: the transcript service is down, and the scenario is
    run in [summarizero2.py] and in [summary.py]. *)
Lemma fetch_transcript_failure_witness :
  fst (Summarizero2.fetch_transcript env_transcript_down (py "abc123")
         {| session := initial_session; trace := [] |})
  = Raise (Exc RuntimeError
             (Summarizero2.transcript_hint ++ py "no element found"))
  /\ @Summary.run example_platform env_transcript_down
       (GenerateSummary example_page) initial_session
     = (Ret tt,
        {| session := initial_session;
           trace := [ CallGetTranscript (py "abc123") None;
                      st_error ([cross_mark] ++ py " An error occurred: "
                                ++ py "no element found") ] |}).
Proof.
  pose proof (@fetch_transcript_failure example_platform env_transcript_down
                (py "abc123") (Exc OtherException (py "no element found"))
                {| session := initial_session; trace := [] |})
    as (Ho2 & _ & _ & Hrun).
  split.
  - apply Ho2. reflexivity.
  - apply (Hrun eq_refl (py "sk-example") example_page initial_session);
      vm_compute; reflexivity.
Defined.
